(** * Posts, comments and likes: counters and cascades of [main.py]

    A shallow embedding of the request handlers of [src/python/main.py]
    (a FastAPI service over three SQLite tables) and the proofs of the
    consistency properties its specification states about them: the
    denormalised counters, the cascade of [delete_post], the idempotence
    of likes and the validation of request bodies.

    The handlers are modelled as they are written: each one validates
    its body, opens a connection, runs its SQL statements on the
    connection's working copy of the tables and commits; a handler that
    raises before [commit] leaves the database as it was.  The two
    values the handlers draw from their environment, [uuid.uuid4()] and
    [now_iso()], are arguments of the embedded handlers.  Requests are
    served one at a time: the model is sequential. *)

From Stdlib Require Import ZArith DecimalString.
From stdpp Require Import base decidable option list strings gmap.

Set Warnings "-register-all".

Local Open Scope string_scope.
Local Open Scope Z_scope.
Local Open Scope list_scope.

(** ** Python values and request bodies *)

(** The values a decoded JSON body can hold ([body: dict]); JSON numbers
    with a fraction or an exponent are left out of the model. *)
Inductive pyval : Type :=
  | PNone
  | PBool (b : bool)
  | PInt (z : Z)
  | PStr (s : string)
  | PList (l : list pyval)
  | PDict (d : list (string * pyval)).

(** A Python [dict] with string keys. *)
Abbreviation dict := (gmap string pyval).

(** Python's truth value of an object, as [not x] tests it. *)
Definition truthy (v : pyval) : bool :=
  match v with
  | PNone => false
  | PBool b => b
  | PInt z => negb (z =? 0)
  | PStr s => negb (String.eqb s "")
  | PList l => match l with [] => false | _ => true end
  | PDict d => match d with [] => false | _ => true end
  end.

(** [body.get(k)]: the value under [k], or [None] when the key is
    missing. *)
Definition py_get (body : dict) (k : string) : pyval :=
  default PNone (body !! k).

(** ** Results and exceptions *)

(** What a handler can raise: the two [HTTPException]s of the source,
    [InvalidInput] (status 400) and [NotFound] (status 404); the
    exceptions of the database driver, [IntegrityError] for a violated
    constraint, [InterfaceError] for a parameter of a type it cannot
    bind and [OverflowError] for an integer beyond 64 bits; and Python's
    own [KeyError] and [TypeError].  The handlers catch none of them,
    except [like_post] the [IntegrityError] of its insert. *)
Inductive exn : Type :=
  | InvalidInput
  | NotFound
  | IntegrityError
  | InterfaceError
  | OverflowError
  | KeyError
  | TypeError.

Global Instance exn_eq_dec : EqDecision exn.
Proof. solve_decision. Defined.

Inductive result (A : Type) : Type :=
  | Ok (a : A)
  | Raise (e : exn).
Arguments Ok {A} a.
Arguments Raise {A} e.

(** State and exceptions: a computation over a state [S] returns a
    result and the state it leaves. *)
Definition M (S A : Type) : Type := S → result A * S.

Definition ret {S A} (a : A) : M S A := λ s, (Ok a, s).
Definition raise {S A} (e : exn) : M S A := λ s, (Raise e, s).
Definition bind {S A B} (m : M S A) (k : A → M S B) : M S B :=
  λ s, match m s with
       | (Ok a, s') => k a s'
       | (Raise e, s') => (Raise e, s')
       end.

Notation "'let*' x ':=' m 'in' k" := (bind m (λ x, k))
  (at level 10, x binder, m at level 100, k at level 200).

(** [body[k]]: subscription raises [KeyError] on a missing key. *)
Definition py_item {S} (body : dict) (k : string) : M S pyval :=
  match body !! k with
  | Some v => ret v
  | None => raise KeyError
  end.

(** ** The three tables *)

Record Post : Type := mkPost {
  p_id : string;
  p_username : string;
  p_content : string;
  p_createdAt : string;
  p_updatedAt : string;
  p_likes : Z;
  p_comments : Z
}.

Record Comment : Type := mkComment {
  c_id : string;
  c_postId : string;
  c_username : string;
  c_content : string;
  c_createdAt : string;
  c_updatedAt : string
}.

Record Like : Type := mkLike {
  l_postId : string;
  l_username : string
}.

Global Instance Post_eq_dec : EqDecision Post.
Proof. solve_decision. Defined.
Global Instance Comment_eq_dec : EqDecision Comment.
Proof. solve_decision. Defined.
Global Instance Like_eq_dec : EqDecision Like.
Proof. solve_decision. Defined.

(** The database file: the rows of [posts], [comments] and [likes], in
    insertion order. *)
Record store : Type := mkStore {
  posts : list Post;
  comments : list Comment;
  likes : list Like
}.

(** The tables [init_db] creates in a new database file. *)
Definition empty_store : store := mkStore [] [] [].

(** ** Connections and transactions *)

(** An open connection: the committed tables and the working copy the
    statements of the connection read and write.  [commit] makes the
    working copy the committed one; closing the connection, normally or
    by an exception, keeps only what was committed. *)
Record conn : Type := mkConn {
  durable : store;
  txn : store
}.

Definition query {A} (f : store → A) : M conn A :=
  λ c, (Ok (f (txn c)), c).

Definition modify (f : store → store) : M conn unit :=
  λ c, (Ok (), mkConn (durable c) (f (txn c))).

Definition commit : M conn unit :=
  λ c, (Ok (), mkConn (txn c) (txn c)).

(** [async with aiosqlite.connect(DB_PATH) as db: ...] *)
Definition connect {A} (m : M conn A) : M store A :=
  λ s, let '(r, c) := m (mkConn s s) in (r, durable c).

(** [try: m except e: h] *)
Definition try_except {S A} (m : M S A) (e : exn) (h : M S A) : M S A :=
  λ s, match m s with
       | (Raise e', s') => if decide (e' = e) then h s' else (Raise e', s')
       | r => r
       end.

(** *** Parameters

    A parameter bound for a [TEXT] column: strings are stored as they
    are, integers (and booleans, which the driver binds as integers) as
    their decimal text, [None] as [NULL]; the driver refuses lists and
    dicts, and integers outside 64 bits. *)
Definition sql_text (v : pyval) : result (option string) :=
  match v with
  | PNone => Ok None
  | PBool b => Ok (Some (if b then "1" else "0"))
  | PInt z =>
      if (- 2 ^ 63 <=? z) && (z <? 2 ^ 63)
      then Ok (Some (NilZero.string_of_int (Z.to_int z)))
      else Raise OverflowError
  | PStr s => Ok (Some s)
  | PList _ => Raise InterfaceError
  | PDict _ => Raise InterfaceError
  end.

Definition param (v : pyval) : M conn (option string) :=
  λ c, (sql_text v, c).

(** A parameter stored in a [NOT NULL] column. *)
Definition param_not_null (v : pyval) : M conn string :=
  let* t := param v in
  match t with
  | Some s => ret s
  | None => raise IntegrityError
  end.

(** [cursor.fetchone()] *)
Definition fetchone {A} (rows : list A) : option A := head rows.

(** *** Statements on [posts] *)

(** [SELECT * FROM posts] *)
Definition select_posts : M conn (list Post) := query posts.

(** [SELECT * FROM posts WHERE id = ?] *)
Definition select_post (postId : string) : M conn (list Post) :=
  query (λ s, filter (λ p, p_id p = postId) (posts s)).

(** [INSERT INTO posts (id, username, content, createdAt, updatedAt,
    likes, comments) VALUES (?, ?, ?, ?, ?, ?, ?)]; [id] is the primary
    key. *)
Definition insert_post (id : string) (username content : pyval)
    (createdAt updatedAt : string) (nlikes ncomments : Z) : M conn unit :=
  let* u := param_not_null username in
  let* c := param_not_null content in
  let* rows := select_post id in
  match rows with
  | _ :: _ => raise IntegrityError
  | [] =>
      modify (λ s, mkStore
        (posts s ++ [mkPost id u c createdAt updatedAt nlikes ncomments])
        (comments s) (likes s))
  end.

(** [UPDATE posts SET username = ?, content = ?, updatedAt = ?
    WHERE id = ?], on one row and on the table. *)
Definition set_post (u c now postId : string) (p : Post) : Post :=
  if decide (p_id p = postId)
  then mkPost (p_id p) u c (p_createdAt p) now (p_likes p) (p_comments p)
  else p.

Definition update_post_row (username content : pyval) (now postId : string)
    : M conn unit :=
  let* u := param_not_null username in
  let* c := param_not_null content in
  modify (λ s, mkStore (set_post u c now postId <$> posts s)
                       (comments s) (likes s)).

(** [DELETE FROM posts WHERE id = ?] *)
Definition delete_post_row (postId : string) : M conn unit :=
  modify (λ s, mkStore (filter (λ p, p_id p ≠ postId) (posts s))
                       (comments s) (likes s)).

(** [UPDATE posts SET comments = comments + 1 WHERE id = ?] *)
Definition comments_plus (postId : string) (p : Post) : Post :=
  if decide (p_id p = postId)
  then mkPost (p_id p) (p_username p) (p_content p) (p_createdAt p)
              (p_updatedAt p) (p_likes p) (p_comments p + 1)
  else p.

Definition incr_comments (postId : string) : M conn unit :=
  modify (λ s, mkStore (comments_plus postId <$> posts s)
                       (comments s) (likes s)).

(** [UPDATE posts SET comments = comments - 1 WHERE id = ? AND
    comments > 0] *)
Definition comments_minus (postId : string) (p : Post) : Post :=
  if decide (p_id p = postId ∧ p_comments p > 0)
  then mkPost (p_id p) (p_username p) (p_content p) (p_createdAt p)
              (p_updatedAt p) (p_likes p) (p_comments p - 1)
  else p.

Definition decr_comments (postId : string) : M conn unit :=
  modify (λ s, mkStore (comments_minus postId <$> posts s)
                       (comments s) (likes s)).

(** [UPDATE posts SET likes = likes + 1 WHERE id = ?] *)
Definition likes_plus (postId : string) (p : Post) : Post :=
  if decide (p_id p = postId)
  then mkPost (p_id p) (p_username p) (p_content p) (p_createdAt p)
              (p_updatedAt p) (p_likes p + 1) (p_comments p)
  else p.

Definition incr_likes (postId : string) : M conn unit :=
  modify (λ s, mkStore (likes_plus postId <$> posts s)
                       (comments s) (likes s)).

(** [UPDATE posts SET likes = likes - 1 WHERE id = ? AND likes > 0] *)
Definition likes_minus (postId : string) (p : Post) : Post :=
  if decide (p_id p = postId ∧ p_likes p > 0)
  then mkPost (p_id p) (p_username p) (p_content p) (p_createdAt p)
              (p_updatedAt p) (p_likes p - 1) (p_comments p)
  else p.

Definition decr_likes (postId : string) : M conn unit :=
  modify (λ s, mkStore (likes_minus postId <$> posts s)
                       (comments s) (likes s)).

(** *** Statements on [comments] *)

(** [SELECT * FROM comments WHERE postId = ?] *)
Definition select_comments (postId : string) : M conn (list Comment) :=
  query (λ s, filter (λ c, c_postId c = postId) (comments s)).

(** [SELECT * FROM comments WHERE id = ? AND postId = ?] *)
Definition select_comment (commentId postId : string) : M conn (list Comment) :=
  query (λ s, filter (λ c, c_id c = commentId ∧ c_postId c = postId)
                     (comments s)).

(** [INSERT INTO comments (id, postId, username, content, createdAt,
    updatedAt) VALUES (?, ?, ?, ?, ?, ?)]; [id] is the primary key. *)
Definition insert_comment (id postId : string) (username content : pyval)
    (createdAt updatedAt : string) : M conn unit :=
  let* u := param_not_null username in
  let* c := param_not_null content in
  let* rows := query (λ s, filter (λ c, c_id c = id) (comments s)) in
  match rows with
  | _ :: _ => raise IntegrityError
  | [] =>
      modify (λ s, mkStore (posts s)
        (comments s ++ [mkComment id postId u c createdAt updatedAt])
        (likes s))
  end.

(** [UPDATE comments SET username = ?, content = ?, updatedAt = ?
    WHERE id = ? AND postId = ?], on one row and on the table. *)
Definition set_comment (u c now commentId postId : string) (r : Comment)
    : Comment :=
  if decide (c_id r = commentId ∧ c_postId r = postId)
  then mkComment (c_id r) (c_postId r) u c (c_createdAt r) now
  else r.

Definition update_comment_row (username content : pyval)
    (now commentId postId : string) : M conn unit :=
  let* u := param_not_null username in
  let* c := param_not_null content in
  modify (λ s, mkStore (posts s)
                       (set_comment u c now commentId postId <$> comments s)
                       (likes s)).

(** [DELETE FROM comments WHERE id = ? AND postId = ?] *)
Definition delete_comment_row (commentId postId : string) : M conn unit :=
  modify (λ s, mkStore (posts s)
    (filter (λ c, ¬ (c_id c = commentId ∧ c_postId c = postId)) (comments s))
    (likes s)).

(** [DELETE FROM comments WHERE postId = ?] *)
Definition delete_comments_of (postId : string) : M conn unit :=
  modify (λ s, mkStore (posts s)
    (filter (λ c, c_postId c ≠ postId) (comments s)) (likes s)).

(** *** Statements on [likes] *)

(** [SELECT * FROM likes WHERE postId = ? AND username = ?]; a [NULL]
    parameter equals no username. *)
Definition select_like (postId : string) (username : pyval)
    : M conn (list Like) :=
  let* u := param username in
  query (λ s, filter (λ l, l_postId l = postId ∧ Some (l_username l) = u)
                     (likes s)).

(** [INSERT INTO likes (postId, username) VALUES (?, ?)]; the pair is
    the primary key. *)
Definition insert_like (postId : string) (username : pyval) : M conn unit :=
  let* u := param_not_null username in
  let* rows := query (λ s, filter (λ l, l_postId l = postId ∧ l_username l = u)
                                  (likes s)) in
  match rows with
  | _ :: _ => raise IntegrityError
  | [] =>
      modify (λ s, mkStore (posts s) (comments s)
                           (likes s ++ [mkLike postId u]))
  end.

(** [DELETE FROM likes WHERE postId = ? AND username = ?] *)
Definition delete_like (postId : string) (username : pyval) : M conn unit :=
  let* u := param username in
  modify (λ s, mkStore (posts s) (comments s)
    (filter (λ l, ¬ (l_postId l = postId ∧ Some (l_username l) = u))
            (likes s))).

(** [DELETE FROM likes WHERE postId = ?] *)
Definition delete_likes_of (postId : string) : M conn unit :=
  modify (λ s, mkStore (posts s) (comments s)
    (filter (λ l, l_postId l ≠ postId) (likes s))).

(** *** Rows as dicts: [dict(zip([c[0] for c in cursor.description], row))] *)

Definition post_dict (p : Post) : dict :=
  {[ "id" := PStr (p_id p);
     "username" := PStr (p_username p);
     "content" := PStr (p_content p);
     "createdAt" := PStr (p_createdAt p);
     "updatedAt" := PStr (p_updatedAt p);
     "likes" := PInt (p_likes p);
     "comments" := PInt (p_comments p) ]}.

Definition comment_dict (c : Comment) : dict :=
  {[ "id" := PStr (c_id c);
     "postId" := PStr (c_postId c);
     "username" := PStr (c_username c);
     "content" := PStr (c_content c);
     "createdAt" := PStr (c_createdAt c);
     "updatedAt" := PStr (c_updatedAt c) ]}.

(** [zip] over a row that [fetchone] did not find ([None]) raises
    [TypeError]. *)
Definition row_dict {S A} (f : A → dict) (row : option A) : M S dict :=
  match row with
  | Some r => ret (f r)
  | None => raise TypeError
  end.

(** [Response(status_code=...)] *)
Record Response : Type := mkResponse { status_code : nat }.

(** ** The handlers *)

Module Handlers.

(** [GET /posts] *)
Definition list_posts : M store (list dict) :=
  connect (
    let* rows := select_posts in
    ret (post_dict <$> rows)).

(** [POST /posts] *)
Definition create_post (body : dict) (uuid4 now : string) : M store dict :=
  if negb (truthy (py_get body "username"))
     || negb (truthy (py_get body "content"))
  then raise InvalidInput
  else
    let post_id := uuid4 in
    let* username := py_item body "username" in
    let* content := py_item body "content" in
    let post : dict :=
      {[ "id" := PStr post_id;
         "username" := username;
         "content" := content;
         "createdAt" := PStr now;
         "updatedAt" := PStr now;
         "likes" := PInt 0;
         "comments" := PInt 0 ]} in
    let* _ := connect (
      let* _ := insert_post post_id username content now now 0 0 in
      commit) in
    ret post.

(** [GET /posts/{postId}] *)
Definition get_post (postId : string) : M store dict :=
  connect (
    let* rows := select_post postId in
    match fetchone rows with
    | None => raise NotFound
    | Some row => ret (post_dict row)
    end).

(** [PATCH /posts/{postId}] *)
Definition update_post (postId : string) (body : dict) (now : string)
    : M store dict :=
  if negb (truthy (py_get body "username"))
     || negb (truthy (py_get body "content"))
  then raise InvalidInput
  else
    connect (
      let* rows := select_post postId in
      match fetchone rows with
      | None => raise NotFound
      | Some _ =>
          let* username := py_item body "username" in
          let* content := py_item body "content" in
          let* _ := update_post_row username content now postId in
          let* _ := commit in
          let* rows := select_post postId in
          row_dict post_dict (fetchone rows)
      end).

(** [DELETE /posts/{postId}] *)
Definition delete_post (postId : string) : M store Response :=
  let* _ := connect (
    let* rows := select_post postId in
    match fetchone rows with
    | None => raise NotFound
    | Some _ =>
        let* _ := delete_post_row postId in
        let* _ := delete_comments_of postId in
        let* _ := delete_likes_of postId in
        commit
    end) in
  ret (mkResponse 204).

(** [GET /posts/{postId}/comments] *)
Definition list_comments (postId : string) : M store (list dict) :=
  connect (
    let* rows := select_post postId in
    match fetchone rows with
    | None => raise NotFound
    | Some _ =>
        let* rows := select_comments postId in
        ret (comment_dict <$> rows)
    end).

(** [POST /posts/{postId}/comments] *)
Definition create_comment (postId : string) (body : dict) (uuid4 now : string)
    : M store dict :=
  if negb (truthy (py_get body "username"))
     || negb (truthy (py_get body "content"))
  then raise InvalidInput
  else
    let comment_id := uuid4 in
    let* username := py_item body "username" in
    let* content := py_item body "content" in
    let comment : dict :=
      {[ "id" := PStr comment_id;
         "postId" := PStr postId;
         "username" := username;
         "content" := content;
         "createdAt" := PStr now;
         "updatedAt" := PStr now ]} in
    let* _ := connect (
      let* rows := select_post postId in
      match fetchone rows with
      | None => raise NotFound
      | Some _ =>
          let* _ := insert_comment comment_id postId username content now now in
          let* _ := incr_comments postId in
          commit
      end) in
    ret comment.

(** [GET /posts/{postId}/comments/{commentId}] *)
Definition get_comment (postId commentId : string) : M store dict :=
  connect (
    let* rows := select_comment commentId postId in
    match fetchone rows with
    | None => raise NotFound
    | Some row => ret (comment_dict row)
    end).

(** [PATCH /posts/{postId}/comments/{commentId}] *)
Definition update_comment (postId commentId : string) (body : dict)
    (now : string) : M store dict :=
  if negb (truthy (py_get body "username"))
     || negb (truthy (py_get body "content"))
  then raise InvalidInput
  else
    connect (
      let* rows := select_comment commentId postId in
      match fetchone rows with
      | None => raise NotFound
      | Some _ =>
          let* username := py_item body "username" in
          let* content := py_item body "content" in
          let* _ := update_comment_row username content now commentId postId in
          let* _ := commit in
          let* rows := select_comment commentId postId in
          row_dict comment_dict (fetchone rows)
      end).

(** [DELETE /posts/{postId}/comments/{commentId}] *)
Definition delete_comment (postId commentId : string) : M store Response :=
  let* _ := connect (
    let* rows := select_comment commentId postId in
    match fetchone rows with
    | None => raise NotFound
    | Some _ =>
        let* _ := delete_comment_row commentId postId in
        let* _ := decr_comments postId in
        commit
    end) in
  ret (mkResponse 204).

(** [POST /posts/{postId}/likes] *)
Definition like_post (postId : string) (body : dict) : M store Response :=
  if negb (truthy (py_get body "username"))
  then raise InvalidInput
  else
    let* _ := connect (
      let* rows := select_post postId in
      match fetchone rows with
      | None => raise NotFound
      | Some _ =>
          try_except
            (let* username := py_item body "username" in
             let* _ := insert_like postId username in
             let* _ := incr_likes postId in
             commit)
            IntegrityError
            (ret ())
      end) in
    ret (mkResponse 201).

(** [DELETE /posts/{postId}/likes] *)
Definition unlike_post (postId : string) (body : dict) : M store Response :=
  if negb (truthy (py_get body "username"))
  then raise InvalidInput
  else
    connect (
      let* rows := select_post postId in
      match fetchone rows with
      | None => raise NotFound
      | Some _ =>
          let* username := py_item body "username" in
          let* rows := select_like postId username in
          match fetchone rows with
          | None => ret (mkResponse 204)
          | Some _ =>
              let* username := py_item body "username" in
              let* _ := delete_like postId username in
              let* _ := decr_likes postId in
              let* _ := commit in
              ret (mkResponse 204)
          end
      end).

End Handlers.
Export Handlers.

(** ** Requests and reachable states *)

Inductive request : Type :=
  | ListPosts
  | CreatePost (body : dict) (uuid4 now : string)
  | GetPost (postId : string)
  | UpdatePost (postId : string) (body : dict) (now : string)
  | DeletePost (postId : string)
  | ListComments (postId : string)
  | CreateComment (postId : string) (body : dict) (uuid4 now : string)
  | GetComment (postId commentId : string)
  | UpdateComment (postId commentId : string) (body : dict) (now : string)
  | DeleteComment (postId commentId : string)
  | LikePost (postId : string) (body : dict)
  | UnlikePost (postId : string) (body : dict).

(** The database a request leaves behind. *)
Definition serve (r : request) (s : store) : store :=
  match r with
  | ListPosts => snd (list_posts s)
  | CreatePost body uuid4 now => snd (create_post body uuid4 now s)
  | GetPost postId => snd (get_post postId s)
  | UpdatePost postId body now => snd (update_post postId body now s)
  | DeletePost postId => snd (delete_post postId s)
  | ListComments postId => snd (list_comments postId s)
  | CreateComment postId body uuid4 now =>
      snd (create_comment postId body uuid4 now s)
  | GetComment postId commentId => snd (get_comment postId commentId s)
  | UpdateComment postId commentId body now =>
      snd (update_comment postId commentId body now s)
  | DeleteComment postId commentId => snd (delete_comment postId commentId s)
  | LikePost postId body => snd (like_post postId body s)
  | UnlikePost postId body => snd (unlike_post postId body s)
  end.

(** The states of the database: the empty tables of [init_db], and
    whatever a sequence of requests makes of them. *)
Inductive reachable : store → Prop :=
  | reachable_init : reachable empty_store
  | reachable_serve s r : reachable s → reachable (serve r s).

(** ** What the specification counts *)

(** The Like-edges of a post. *)
Definition likes_of (postId : string) (s : store) : list Like :=
  filter (λ l, l_postId l = postId) (likes s).

(** The Comment rows of a post. *)
Definition comments_of (postId : string) (s : store) : list Comment :=
  filter (λ c, c_postId c = postId) (comments s).

(** The post rows under an id. *)
Definition posts_at (postId : string) (s : store) : list Post :=
  filter (λ p, p_id p = postId) (posts s).

(** Both counters of every post equal the number of rows they count. *)
Definition counters_ok (s : store) : Prop :=
  ∀ p, p ∈ posts s →
    p_likes p = Z.of_nat (length (likes_of (p_id p) s)) ∧
    p_comments p = Z.of_nat (length (comments_of (p_id p) s)).

(** Every comment and every like names a post of the store. *)
Definition references_ok (s : store) : Prop :=
  (∀ c, c ∈ comments s → ∃ p, p ∈ posts s ∧ p_id p = c_postId c) ∧
  (∀ l, l ∈ likes s → ∃ p, p ∈ posts s ∧ p_id p = l_postId l).

(** The primary keys of the three tables. *)
Definition keys_ok (s : store) : Prop :=
  NoDup (p_id <$> posts s) ∧
  NoDup (c_id <$> comments s) ∧
  NoDup (likes s).

Definition consistent (s : store) : Prop :=
  keys_ok s ∧ references_ok s ∧ counters_ok s.

(** ** Reading the tables *)

(** The row [get_post] reads: the first row of
    [SELECT * FROM posts WHERE id = ?]. *)
Definition find_post (postId : string) (s : store) : option Post :=
  fetchone (posts_at postId s).

(** The row [get_comment] reads. *)
Definition find_comment (postId commentId : string) (s : store)
    : option Comment :=
  fetchone (filter (λ c, c_id c = commentId ∧ c_postId c = postId)
                   (comments s)).

(** The Like-edges keyed [(postId, username)]. *)
Definition edges (postId username : string) (s : store) : list Like :=
  filter (λ l, l_postId l = postId ∧ l_username l = username) (likes s).

(** A field the validation of a handler refuses. *)
Definition falsy (body : dict) (k : string) : Prop :=
  truthy (py_get body k) = false.

(** The handler answered 400. *)
Definition rejected {A} (r : result A * store) : Prop :=
  fst r = Raise InvalidInput.

(** ** The scenario of the specification

    Post [p1] by [a]; [b] likes it; [c] comments on it. *)

Definition body_a : dict := {[ "username" := PStr "a"; "content" := PStr "hi" ]}.
Definition body_b : dict := {[ "username" := PStr "b" ]}.
Definition body_c : dict := {[ "username" := PStr "c"; "content" := PStr "ok" ]}.

Definition s_posted : store := serve (CreatePost body_a "p1" "t0") empty_store.
Definition s_liked : store := serve (LikePost "p1" body_b) s_posted.
Definition s_commented : store :=
  serve (CreateComment "p1" body_c "c1" "t1") s_liked.

Definition row_p1 : Post := mkPost "p1" "a" "hi" "t0" "t0" 1 1.
Definition row_c1 : Comment := mkComment "c1" "p1" "c" "ok" "t1" "t1".

(** A body whose username is one blank. *)
Definition body_blank : dict :=
  {[ "username" := PStr " "; "content" := PStr "hi" ]}.


(** A store whose counter has drifted below its rows: a comment on [p1]
    that its [comments] does not count. *)
Definition s_drifted : store :=
  mkStore [mkPost "p1" "a" "hi" "t0" "t0" 0 0] [row_c1] [].


(** ** What a request answers *)

(** The exception of a result, if it is one. *)
Definition exn_of {A} (x : result A) : option exn :=
  match x with
  | Ok _ => None
  | Raise e => Some e
  end.

(** The exception a request ends in, if it does. *)
Definition raises (r : request) (s : store) : option exn :=
  match r with
  | ListPosts => exn_of (fst (list_posts s))
  | CreatePost body uuid4 now => exn_of (fst (create_post body uuid4 now s))
  | GetPost postId => exn_of (fst (get_post postId s))
  | UpdatePost postId body now => exn_of (fst (update_post postId body now s))
  | DeletePost postId => exn_of (fst (delete_post postId s))
  | ListComments postId => exn_of (fst (list_comments postId s))
  | CreateComment postId body uuid4 now =>
      exn_of (fst (create_comment postId body uuid4 now s))
  | GetComment postId commentId => exn_of (fst (get_comment postId commentId s))
  | UpdateComment postId commentId body now =>
      exn_of (fst (update_comment postId commentId body now s))
  | DeleteComment postId commentId =>
      exn_of (fst (delete_comment postId commentId s))
  | LikePost postId body => exn_of (fst (like_post postId body s))
  | UnlikePost postId body => exn_of (fst (unlike_post postId body s))
  end.

(** The requests that only read: the four [GET] routes. *)
Definition is_get (r : request) : bool :=
  match r with
  | ListPosts | GetPost _ | ListComments _ | GetComment _ _ => true
  | _ => false
  end.

(** The sum of a counter over the rows of [posts]. *)
Definition total (f : Post → Z) (s : store) : Z :=
  foldr (λ p n, f p + n) 0 (posts s).




(** ** Start-up *)

(** The database file as [init_db] finds it: each of the three tables is
    there, with its rows, or is not. *)
Record dbfile : Type := mkFile {
  f_posts : option (list Post);
  f_comments : option (list Comment);
  f_likes : option (list Like)
}.

(** [CREATE TABLE IF NOT EXISTS posts], [comments], [likes]. *)
Definition init_db (f : dbfile) : dbfile :=
  mkFile (Some (default [] (f_posts f)))
         (Some (default [] (f_comments f)))
         (Some (default [] (f_likes f))).

(** [on_startup] *)
Definition on_startup (f : dbfile) : dbfile := init_db f.

(** The file of a database with its three tables, and back. *)
Definition file_of (s : store) : dbfile :=
  mkFile (Some (posts s)) (Some (comments s)) (Some (likes s)).

Definition tables (f : dbfile) : option store :=
  match f_posts f, f_comments f, f_likes f with
  | Some ps, Some cs, Some ls => Some (mkStore ps cs ls)
  | _, _, _ => None
  end.

(** ** Request bodies *)

Lemma truthy_get (body : dict) (k : string) :
  truthy (py_get body k) = true →
  ∃ v, body !! k = Some v ∧ truthy v = true.
Proof.
  unfold py_get. destruct (body !! k) as [v|]; simpl; [eauto | discriminate].
Qed.

(** ** Running the handlers *)

Ltac unfold_db :=
  unfold connect, try_except, insert_post, update_post_row, delete_post_row,
    incr_comments, decr_comments, incr_likes, decr_likes, insert_comment,
    update_comment_row, delete_comment_row, delete_comments_of, select_like,
    insert_like, delete_like, delete_likes_of, select_post, select_posts,
    select_comment, select_comments, row_dict, param_not_null, param, py_item,
    query, modify, commit, bind, ret, raise, fetchone.

Ltac reduce :=
  cbn beta iota zeta delta [txn durable fst snd posts comments likes head].

(** The two fields every body with [username] and [content] is checked
    for. *)
Ltac validate body :=
  let Hu := fresh "Hu" in
  let Hc := fresh "Hc" in
  let vu := fresh "vu" in
  let vc := fresh "vc" in
  let Tu := fresh "Tu" in
  let Tc := fresh "Tc" in
  destruct (truthy (py_get body "username")) eqn:Hu; [|by left];
  destruct (truthy (py_get body "content")) eqn:Hc; [|by left];
  apply truthy_get in Hu as (vu & Hu & Tu);
  apply truthy_get in Hc as (vc & Hc & Tc);
  cbn [negb orb]; unfold_db; rewrite ?Hu, ?Hc; reduce.

Lemma create_post_store body uuid4 now s :
  snd (create_post body uuid4 now s) = s ∨
  ∃ u c, posts_at uuid4 s = [] ∧
    snd (create_post body uuid4 now s) =
      mkStore (posts s ++ [mkPost uuid4 u c now now 0 0]) (comments s) (likes s).
Proof.
  unfold create_post. validate body.
  destruct (sql_text vu) as [[u|]|e]; reduce; [|by left..].
  destruct (sql_text vc) as [[c|]|e]; reduce; [|by left..].
  destruct (filter _ (posts s)) as [|row rows] eqn:Hf; reduce; [|by left].
  right. by exists u, c.
Qed.

Lemma update_post_store postId body now s :
  snd (update_post postId body now s) = s ∨
  ∃ u c,
    snd (update_post postId body now s) =
      mkStore (set_post u c now postId <$> posts s) (comments s) (likes s).
Proof.
  unfold update_post. validate body.
  destruct (filter _ (posts s)) as [|row rows] eqn:Hf; reduce; [by left|].
  destruct (sql_text vu) as [[u|]|e]; reduce; [|by left..].
  destruct (sql_text vc) as [[c|]|e]; reduce; [|by left..].
  right. exists u, c. by destruct (head _).
Qed.

Lemma delete_post_run postId s :
  delete_post postId s =
    match posts_at postId s with
    | [] => (Raise NotFound, s)
    | _ :: _ =>
        (Ok (mkResponse 204),
         mkStore (filter (λ p, p_id p ≠ postId) (posts s))
                 (filter (λ c, c_postId c ≠ postId) (comments s))
                 (filter (λ l, l_postId l ≠ postId) (likes s)))
    end.
Proof.
  unfold delete_post, posts_at. unfold_db. reduce.
  by destruct (filter _ (posts s)).
Qed.

Lemma create_comment_store postId body uuid4 now s :
  snd (create_comment postId body uuid4 now s) = s ∨
  ∃ u c, posts_at postId s ≠ [] ∧
    filter (λ r, c_id r = uuid4) (comments s) = [] ∧
    snd (create_comment postId body uuid4 now s) =
      mkStore (comments_plus postId <$> posts s)
              (comments s ++ [mkComment uuid4 postId u c now now])
              (likes s).
Proof.
  unfold create_comment. validate body.
  destruct (filter _ (posts s)) as [|row rows] eqn:Hf; reduce; [by left|].
  destruct (sql_text vu) as [[u|]|e]; reduce; [|by left..].
  destruct (sql_text vc) as [[c|]|e]; reduce; [|by left..].
  destruct (filter _ (comments s)) as [|row' rows'] eqn:Hg; reduce; [|by left].
  right. exists u, c. unfold posts_at. by rewrite Hf.
Qed.

Lemma update_comment_store postId commentId body now s :
  snd (update_comment postId commentId body now s) = s ∨
  ∃ u c,
    snd (update_comment postId commentId body now s) =
      mkStore (posts s) (set_comment u c now commentId postId <$> comments s)
              (likes s).
Proof.
  unfold update_comment. validate body.
  destruct (filter _ (comments s)) as [|row rows] eqn:Hf; reduce; [by left|].
  destruct (sql_text vu) as [[u|]|e]; reduce; [|by left..].
  destruct (sql_text vc) as [[c|]|e]; reduce; [|by left..].
  right. exists u, c. by destruct (head _).
Qed.

Lemma delete_comment_run postId commentId s :
  delete_comment postId commentId s =
    match filter (λ c, c_id c = commentId ∧ c_postId c = postId) (comments s) with
    | [] => (Raise NotFound, s)
    | _ :: _ =>
        (Ok (mkResponse 204),
         mkStore (comments_minus postId <$> posts s)
                 (filter (λ c, ¬ (c_id c = commentId ∧ c_postId c = postId))
                         (comments s))
                 (likes s))
    end.
Proof.
  unfold delete_comment. unfold_db. reduce.
  by destruct (filter _ (comments s)).
Qed.

Lemma like_post_store postId body s :
  snd (like_post postId body s) = s ∨
  ∃ u, posts_at postId s ≠ [] ∧
    filter (λ l, l_postId l = postId ∧ l_username l = u) (likes s) = [] ∧
    snd (like_post postId body s) =
      mkStore (likes_plus postId <$> posts s) (comments s)
              (likes s ++ [mkLike postId u]).
Proof.
  unfold like_post.
  destruct (truthy (py_get body "username")) eqn:Hu; [|by left].
  apply truthy_get in Hu as (vu & Hu & Tu).
  cbn [negb]. unfold_db. rewrite Hu. reduce.
  destruct (filter _ (posts s)) as [|row rows] eqn:Hf; reduce; [by left|].
  destruct (sql_text vu) as [[u|]|e]; reduce;
    [|by left|left; by destruct (decide _)].
  destruct (filter _ (likes s)) as [|row' rows'] eqn:Hg; reduce; [|by left].
  right. exists u. unfold posts_at. by rewrite Hf.
Qed.

Lemma select_like_text postId u (l : list Like) :
  filter (λ r, l_postId r = postId ∧ Some (l_username r) = Some u) l =
  filter (λ r, l_postId r = postId ∧ l_username r = u) l.
Proof.
  apply list_filter_iff. intros r. split; intros [? ?]; split; congruence.
Qed.

Lemma delete_like_text postId u (l : list Like) :
  filter (λ r, ¬ (l_postId r = postId ∧ Some (l_username r) = Some u)) l =
  filter (λ r, ¬ (l_postId r = postId ∧ l_username r = u)) l.
Proof.
  apply list_filter_iff. intros r.
  split; intros Hn [? ?]; apply Hn; split; congruence.
Qed.

Lemma unlike_post_store postId body s :
  snd (unlike_post postId body s) = s ∨
  ∃ u,
    filter (λ l, l_postId l = postId ∧ l_username l = u) (likes s) ≠ [] ∧
    snd (unlike_post postId body s) =
      mkStore (likes_minus postId <$> posts s) (comments s)
              (filter (λ l, ¬ (l_postId l = postId ∧ l_username l = u))
                      (likes s)).
Proof.
  unfold unlike_post.
  destruct (truthy (py_get body "username")) eqn:Hu; [|by left].
  apply truthy_get in Hu as (vu & Hu & Tu).
  cbn [negb]. unfold_db. rewrite Hu. reduce.
  destruct (filter _ (posts s)) as [|row rows] eqn:Hf; reduce; [by left|].
  destruct (sql_text vu) as [[u|]|e]; reduce; [| |by left].
  - rewrite select_like_text.
    destruct (filter _ (likes s)) as [|row' rows'] eqn:Hg; reduce; [by left|].
    right. exists u. by rewrite Hg, delete_like_text.
  - destruct (filter _ (likes s)) as [|row' rows'] eqn:Hg; reduce; [by left|].
    assert (Hin : row' ∈ row' :: rows') by left.
    rewrite <- Hg in Hin. by apply list_elem_of_filter in Hin as [[_ ?] _].
Qed.

Lemma list_posts_store s : snd (list_posts s) = s.
Proof. reflexivity. Qed.

Lemma get_post_store postId s : snd (get_post postId s) = s.
Proof.
  unfold get_post. unfold_db. reduce. by destruct (filter _ (posts s)).
Qed.

Lemma list_comments_store postId s : snd (list_comments postId s) = s.
Proof.
  unfold list_comments. unfold_db. reduce. by destruct (filter _ (posts s)).
Qed.

Lemma get_comment_store postId commentId s :
  snd (get_comment postId commentId s) = s.
Proof.
  unfold get_comment. unfold_db. reduce. by destruct (filter _ (comments s)).
Qed.

(** ** Lists of rows *)

Section rows.
Context {A : Type}.
Implicit Types (l : list A) (P Q D : A → Prop).

Lemma filter_empty P `{∀ x, Decision (P x)} l :
  filter P l = [] ↔ ∀ x, x ∈ l → ¬ P x.
Proof.
  split.
  - intros Hnil x Hx HP. by eapply filter_nil_not_elem_of.
  - intros Hno. induction l as [|a l IH]; [done|].
    rewrite filter_cons_False by (apply Hno; left).
    apply IH. intros x Hx. apply Hno. by right.
Qed.

Lemma filter_inhabited P `{∀ x, Decision (P x)} l :
  filter P l ≠ [] ↔ ∃ x, x ∈ l ∧ P x.
Proof.
  split.
  - destruct (filter P l) as [|a k] eqn:Hf; [done|]. intros _.
    assert (Ha : a ∈ filter P l) by (rewrite Hf; left).
    apply list_elem_of_filter in Ha as [? ?]. eauto.
  - intros (x & Hx & HP) Hnil.
    by eapply (filter_nil_not_elem_of P l x).
Qed.

(** A second filter that keeps whatever the first one selects changes
    nothing of the selection. *)
Lemma filter_filter_keep P Q `{∀ x, Decision (P x)} `{∀ x, Decision (Q x)} l :
  (∀ x, x ∈ l → P x → Q x) → filter P (filter Q l) = filter P l.
Proof.
  intros Hk. induction l as [|a l IH]; [done|].
  assert (IH' : filter P (filter Q l) = filter P l).
  { apply IH. intros x Hx. apply Hk. by right. }
  destruct (decide (Q a)) as [HQ|HQ].
  - rewrite (filter_cons_True Q) by done.
    rewrite !(filter_cons P). by rewrite IH'.
  - rewrite (filter_cons_False Q) by done.
    rewrite (filter_cons_False P); [done|].
    intros HP. apply HQ, Hk; [left | done].
Qed.

(** Deleting the one row a key designates takes one row out of every
    selection that holds it. *)
Lemma filter_delete_one P D `{∀ x, Decision (P x)} `{∀ x, Decision (D x)} l x :
  NoDup l → x ∈ l → D x → P x →
  (∀ y, y ∈ l → D y → y = x) →
  length (filter P l) = S (length (filter P (filter (λ y, ¬ D y) l))).
Proof.
  intros Hnd Hx HD HP Huniq. induction l as [|a l IH]; [by inversion Hx|].
  apply NoDup_cons in Hnd as [Ha Hnd].
  destruct (decide (D a)) as [HDa|HDa].
  - assert (a = x) as -> by (apply Huniq; [left | done]).
    rewrite (filter_cons_False (λ y, ¬ D y)) by tauto.
    rewrite (filter_cons_True P) by done.
    rewrite filter_filter_keep; [done|].
    intros y Hy _ HDy. apply Ha.
    rewrite <- (Huniq y); [done | by right | done].
  - rewrite (filter_cons_True (λ y, ¬ D y)) by done.
    assert (Hx' : x ∈ l).
    { apply elem_of_cons in Hx as [->|?]; [done | done]. }
    assert (IH' := IH Hnd Hx' (λ y Hy, Huniq y (list_elem_of_further _ _ _ Hy))).
    rewrite !(filter_cons P). destruct (decide (P a)); simpl; by rewrite IH'.
Qed.

Lemma NoDup_key {B} (f : A → B) l x y :
  NoDup (f <$> l) → x ∈ l → y ∈ l → f x = f y → x = y.
Proof.
  intros Hnd Hx Hy Hf. induction l as [|a l IH]; [by inversion Hx|].
  rewrite fmap_cons in Hnd. apply NoDup_cons in Hnd as [Ha Hnd].
  apply elem_of_cons in Hx as [->|Hx]; apply elem_of_cons in Hy as [->|Hy].
  - done.
  - exfalso. apply Ha. rewrite Hf. by apply list_elem_of_fmap_2.
  - exfalso. apply Ha. rewrite <- Hf. by apply list_elem_of_fmap_2.
  - by apply IH.
Qed.

Lemma NoDup_key_filter {B} (f : A → B) P `{∀ x, Decision (P x)} l :
  NoDup (f <$> l) → NoDup (f <$> filter P l).
Proof.
  intros Hnd. eapply sublist_NoDup; [exact Hnd|].
  apply fmap_sublist, sublist_filter.
Qed.

Lemma NoDup_key_snoc {B} (f : A → B) l x :
  NoDup (f <$> l) → (∀ y, y ∈ l → f y ≠ f x) → NoDup (f <$> l ++ [x]).
Proof.
  intros Hnd Hfresh. rewrite fmap_app. apply NoDup_app.
  split; [done|]. split; [|apply NoDup_singleton].
  intros b Hb Hb'. apply list_elem_of_singleton in Hb' as ->.
  apply list_elem_of_fmap in Hb as (y & Hy & Hin). by eapply Hfresh.
Qed.

Lemma key_fmap {B} (f : A → B) (g : A → A) l :
  (∀ x, f (g x) = f x) → f <$> (g <$> l) = f <$> l.
Proof.
  intros Hfg. rewrite <- list_fmap_compose.
  apply list_fmap_ext. intros i x _. apply Hfg.
Qed.

(** An update that leaves a selection's criterion alone leaves the
    size of the selection alone. *)
Lemma length_filter_fmap P `{∀ x, Decision (P x)} (g : A → A) l :
  (∀ x, P (g x) ↔ P x) →
  length (filter P (g <$> l)) = length (filter P l).
Proof.
  intros Hg. induction l as [|a l IH]; [done|].
  rewrite fmap_cons, !filter_cons.
  destruct (decide (P (g a))) as [H1|H1], (decide (P a)) as [H2|H2];
    simpl; rewrite ?IH; try done; exfalso;
    [apply H2, Hg, H1 | apply H1, Hg, H2].
Qed.
End rows.

(** ** The updates of one row *)

Lemma set_post_id u c now postId p : p_id (set_post u c now postId p) = p_id p.
Proof. unfold set_post. by case_decide. Qed.

Lemma comments_plus_id postId p : p_id (comments_plus postId p) = p_id p.
Proof. unfold comments_plus. by case_decide. Qed.

Lemma comments_minus_id postId p : p_id (comments_minus postId p) = p_id p.
Proof. unfold comments_minus. by case_decide. Qed.

Lemma likes_plus_id postId p : p_id (likes_plus postId p) = p_id p.
Proof. unfold likes_plus. by case_decide. Qed.

Lemma likes_minus_id postId p : p_id (likes_minus postId p) = p_id p.
Proof. unfold likes_minus. by case_decide. Qed.

Lemma set_comment_id u c now commentId postId r :
  c_id (set_comment u c now commentId postId r) = c_id r.
Proof. unfold set_comment. by case_decide. Qed.

Lemma set_comment_postId u c now commentId postId r :
  c_postId (set_comment u c now commentId postId r) = c_postId r.
Proof. unfold set_comment. by case_decide. Qed.

(** A post under some id, before and after an update of rows that keeps
    ids. *)
Lemma has_post_fmap (g : Post → Post) (l : list Post) (postId : string) :
  (∀ p, p_id (g p) = p_id p) →
  (∃ p, p ∈ l ∧ p_id p = postId) →
  ∃ p, p ∈ g <$> l ∧ p_id p = postId.
Proof.
  intros Hg (p & Hp & Hid). exists (g p).
  split; [by apply list_elem_of_fmap_2 | by rewrite Hg].
Qed.

Lemma references_fmap (g : Post → Post) s :
  (∀ p, p_id (g p) = p_id p) →
  references_ok s →
  references_ok (mkStore (g <$> posts s) (comments s) (likes s)).
Proof.
  intros Hg [Hc Hl]. unfold references_ok. simpl.
  split; intros x Hx; (apply has_post_fmap; [done | auto]).
Qed.

(** ** The transitions keep the tables consistent *)

Lemma consistent_empty : consistent empty_store.
Proof.
  split; [|split].
  - repeat split; apply NoDup_nil_2.
  - split; intros x Hx; by inversion Hx.
  - intros x Hx. by inversion Hx.
Qed.

Lemma consistent_create_post s uuid4 u c now :
  consistent s → posts_at uuid4 s = [] →
  consistent (mkStore (posts s ++ [mkPost uuid4 u c now now 0 0])
                      (comments s) (likes s)).
Proof.
  intros ((Kp & Kc & Kl) & (Rc & Rl) & Cn) Hfresh.
  unfold posts_at in Hfresh. rewrite filter_empty in Hfresh.
  split; [|split].
  - split; [|done]. simpl. apply NoDup_key_snoc; [done|]. apply Hfresh.
  - split; simpl; intros x Hx.
    + destruct (Rc x Hx) as (p & Hp & Hid). exists p.
      split; [apply elem_of_app; by left | done].
    + destruct (Rl x Hx) as (p & Hp & Hid). exists p.
      split; [apply elem_of_app; by left | done].
  - intros p Hp. unfold likes_of, comments_of. simpl in *.
    apply elem_of_app in Hp as [Hp|Hp]; [by apply Cn|].
    apply list_elem_of_singleton in Hp as ->. simpl.
    assert (Hl : filter (λ l, l_postId l = uuid4) (likes s) = []).
    { apply filter_empty. intros l Hl Hid.
      destruct (Rl l Hl) as (p & Hp & Hpid). apply (Hfresh p Hp). congruence. }
    assert (Hc : filter (λ r, c_postId r = uuid4) (comments s) = []).
    { apply filter_empty. intros r Hr Hid.
      destruct (Rc r Hr) as (p & Hp & Hpid). apply (Hfresh p Hp). congruence. }
    by rewrite Hl, Hc.
Qed.

Lemma counters_fmap (g : Post → Post) s (cs : list Comment) (ls : list Like) :
  (∀ p, p_id (g p) = p_id p) →
  (∀ p, p ∈ posts s →
     p_likes (g p) =
       Z.of_nat (length (filter (λ l, l_postId l = p_id p) ls)) ∧
     p_comments (g p) =
       Z.of_nat (length (filter (λ c, c_postId c = p_id p) cs))) →
  counters_ok (mkStore (g <$> posts s) cs ls).
Proof.
  intros Hg Hrows p' Hp'. unfold likes_of, comments_of. simpl in *.
  apply list_elem_of_fmap in Hp' as (p & -> & Hp). rewrite Hg. by apply Hrows.
Qed.

Lemma consistent_update_post s u c now postId :
  consistent s →
  consistent (mkStore (set_post u c now postId <$> posts s)
                      (comments s) (likes s)).
Proof.
  intros ((Kp & Kc & Kl) & R & Cn).
  split; [|split].
  - split; [|done]. simpl. rewrite key_fmap; [done|]. apply set_post_id.
  - apply references_fmap; [apply set_post_id | done].
  - apply counters_fmap; [apply set_post_id|].
    intros p Hp. destruct (Cn p Hp) as [Hl Hc].
    unfold set_post. by case_decide.
Qed.

Lemma consistent_delete_post s postId :
  consistent s →
  consistent (mkStore (filter (λ p, p_id p ≠ postId) (posts s))
                      (filter (λ c, c_postId c ≠ postId) (comments s))
                      (filter (λ l, l_postId l ≠ postId) (likes s))).
Proof.
  intros ((Kp & Kc & Kl) & (Rc & Rl) & Cn).
  split; [|split].
  - repeat split; simpl.
    + by apply NoDup_key_filter.
    + by apply NoDup_key_filter.
    + by apply NoDup_filter.
  - split; simpl; intros x Hx; apply list_elem_of_filter in Hx as [Hne Hx].
    + destruct (Rc x Hx) as (p & Hp & Hid). exists p. split; [|done].
      apply list_elem_of_filter. split; [congruence | done].
    + destruct (Rl x Hx) as (p & Hp & Hid). exists p. split; [|done].
      apply list_elem_of_filter. split; [congruence | done].
  - intros p Hp. unfold likes_of, comments_of. simpl in *.
    apply list_elem_of_filter in Hp as [Hne Hp].
    destruct (Cn p Hp) as [Hl Hc]. unfold likes_of, comments_of in Hl, Hc.
    rewrite !filter_filter_keep; [done | intros; congruence..].
Qed.

Lemma consistent_create_comment s postId uuid4 u c now :
  consistent s →
  filter (λ r, c_id r = uuid4) (comments s) = [] →
  posts_at postId s ≠ [] →
  consistent (mkStore (comments_plus postId <$> posts s)
                      (comments s ++ [mkComment uuid4 postId u c now now])
                      (likes s)).
Proof.
  intros ((Kp & Kc & Kl) & (Rc & Rl) & Cn) Hfresh Hpost.
  rewrite filter_empty in Hfresh.
  unfold posts_at in Hpost. apply filter_inhabited in Hpost.
  split; [|split].
  - repeat split; simpl; [|by apply NoDup_key_snoc|done].
    rewrite key_fmap; [done|]. apply comments_plus_id.
  - split; simpl; intros x Hx; apply has_post_fmap;
      try apply comments_plus_id; [|by apply Rl].
    apply elem_of_app in Hx as [Hx|Hx]; [by apply Rc|].
    by apply list_elem_of_singleton in Hx as ->.
  - apply counters_fmap; [apply comments_plus_id|].
    intros p Hp. destruct (Cn p Hp) as [Hl Hc].
    unfold likes_of, comments_of in Hl, Hc.
    rewrite filter_app, length_app, filter_cons, filter_nil.
    unfold comments_plus. simpl.
    destruct (decide (p_id p = postId)) as [E|Hne]; simpl.
    + rewrite decide_True by done. simpl. split; [done | lia].
    + rewrite decide_False by congruence. simpl. split; [done | lia].
Qed.

Lemma consistent_update_comment s u c now commentId postId :
  consistent s →
  consistent (mkStore (posts s)
                      (set_comment u c now commentId postId <$> comments s)
                      (likes s)).
Proof.
  intros ((Kp & Kc & Kl) & (Rc & Rl) & Cn).
  split; [|split].
  - repeat split; simpl; [done| |done].
    rewrite key_fmap; [done|]. intros r. apply set_comment_id.
  - split; simpl; [|done]. intros x Hx.
    apply list_elem_of_fmap in Hx as (r & -> & Hr).
    rewrite set_comment_postId. by apply Rc.
  - intros p Hp. destruct (Cn p Hp) as [Hl Hc].
    unfold likes_of, comments_of in *. simpl. split; [done|].
    rewrite length_filter_fmap; [done|].
    intros r. by rewrite set_comment_postId.
Qed.

Lemma consistent_delete_comment s postId commentId :
  consistent s →
  filter (λ c, c_id c = commentId ∧ c_postId c = postId) (comments s) ≠ [] →
  consistent (mkStore (comments_minus postId <$> posts s)
                      (filter (λ c, ¬ (c_id c = commentId ∧ c_postId c = postId))
                              (comments s))
                      (likes s)).
Proof.
  intros ((Kp & Kc & Kl) & (Rc & Rl) & Cn) Hrow.
  apply filter_inhabited in Hrow as (r & Hr & Hrid & Hrpost).
  split; [|split].
  - repeat split; simpl; [|by apply NoDup_key_filter|done].
    rewrite key_fmap; [done|]. apply comments_minus_id.
  - split; simpl; intros x Hx; apply has_post_fmap;
      try apply comments_minus_id; [|by apply Rl].
    apply list_elem_of_filter in Hx as [_ Hx]. by apply Rc.
  - apply counters_fmap; [apply comments_minus_id|].
    intros p Hp. destruct (Cn p Hp) as [Hl Hc].
    unfold likes_of, comments_of in Hl, Hc.
    unfold comments_minus.
    destruct (decide (p_id p = postId)) as [E|Hne].
    + assert (Hone :
        length (filter (λ c, c_postId c = p_id p) (comments s)) =
        S (length (filter (λ c, c_postId c = p_id p)
             (filter (λ c, ¬ (c_id c = commentId ∧ c_postId c = postId))
                     (comments s))))).
      { apply (filter_delete_one _ _ _ r); try done.
        - by eapply NoDup_fmap_1.
        - congruence.
        - intros y Hy [Hyid _]. eapply NoDup_key; [exact Kc|done..|congruence]. }
      rewrite decide_True by (split; [done | lia]). simpl. split; [done | lia].
    + rewrite decide_False by tauto. split; [done|].
      rewrite filter_filter_keep; [done|]. intros y _ Hy [_ Hy']. congruence.
Qed.

Lemma consistent_like_post s postId u :
  consistent s →
  filter (λ l, l_postId l = postId ∧ l_username l = u) (likes s) = [] →
  posts_at postId s ≠ [] →
  consistent (mkStore (likes_plus postId <$> posts s) (comments s)
                      (likes s ++ [mkLike postId u])).
Proof.
  intros ((Kp & Kc & Kl) & (Rc & Rl) & Cn) Hfresh Hpost.
  rewrite filter_empty in Hfresh.
  unfold posts_at in Hpost. apply filter_inhabited in Hpost.
  split; [|split].
  - repeat split; simpl; [|done|].
    + rewrite key_fmap; [done|]. apply likes_plus_id.
    + apply NoDup_app. split; [done|]. split; [|apply NoDup_singleton].
      intros l Hl Hl'. apply list_elem_of_singleton in Hl' as ->.
      by apply (Hfresh _ Hl).
  - split; simpl; intros x Hx; apply has_post_fmap;
      try apply likes_plus_id; [by apply Rc|].
    apply elem_of_app in Hx as [Hx|Hx]; [by apply Rl|].
    by apply list_elem_of_singleton in Hx as ->.
  - apply counters_fmap; [apply likes_plus_id|].
    intros p Hp. destruct (Cn p Hp) as [Hl Hc].
    unfold likes_of, comments_of in Hl, Hc.
    rewrite filter_app, length_app, filter_cons, filter_nil.
    unfold likes_plus. simpl.
    destruct (decide (p_id p = postId)) as [E|Hne]; simpl.
    + rewrite decide_True by done. simpl. split; [lia | done].
    + rewrite decide_False by congruence. simpl. split; [lia | done].
Qed.

Lemma consistent_unlike_post s postId u :
  consistent s →
  filter (λ l, l_postId l = postId ∧ l_username l = u) (likes s) ≠ [] →
  consistent (mkStore (likes_minus postId <$> posts s) (comments s)
                      (filter (λ l, ¬ (l_postId l = postId ∧ l_username l = u))
                              (likes s))).
Proof.
  intros ((Kp & Kc & Kl) & (Rc & Rl) & Cn) Hrow.
  apply filter_inhabited in Hrow as (r & Hr & Hrpost & Hruser).
  split; [|split].
  - repeat split; simpl; [|done|by apply NoDup_filter].
    rewrite key_fmap; [done|]. apply likes_minus_id.
  - split; simpl; intros x Hx; apply has_post_fmap;
      try apply likes_minus_id; [by apply Rc|].
    apply list_elem_of_filter in Hx as [_ Hx]. by apply Rl.
  - apply counters_fmap; [apply likes_minus_id|].
    intros p Hp. destruct (Cn p Hp) as [Hl Hc].
    unfold likes_of, comments_of in Hl, Hc.
    unfold likes_minus.
    destruct (decide (p_id p = postId)) as [E|Hne].
    + assert (Hone :
        length (filter (λ l, l_postId l = p_id p) (likes s)) =
        S (length (filter (λ l, l_postId l = p_id p)
             (filter (λ l, ¬ (l_postId l = postId ∧ l_username l = u))
                     (likes s))))).
      { apply (filter_delete_one _ _ _ r); try done.
        - congruence.
        - intros [yp yu] Hy [Hyp Hyu]. destruct r. simpl in *. congruence. }
      rewrite decide_True by (split; [done | lia]). simpl. split; [lia | done].
    + rewrite decide_False by tauto. split; [|done].
      rewrite filter_filter_keep; [done|]. intros y _ Hy [Hy' _]. congruence.
Qed.

(** Every request keeps the tables consistent. *)
Lemma consistent_serve r s : consistent s → consistent (serve r s).
Proof.
  intros Hs. destruct r as [|body uuid4 now|postId|postId body now|postId
    |postId|postId body uuid4 now|postId commentId|postId commentId body now
    |postId commentId|postId body|postId body]; simpl.
  - done.
  - destruct (create_post_store body uuid4 now s) as [->|(u & c & Hf & ->)];
      [done|]. by apply consistent_create_post.
  - by rewrite get_post_store.
  - destruct (update_post_store postId body now s) as [->|(u & c & ->)];
      [done|]. by apply consistent_update_post.
  - rewrite delete_post_run. destruct (posts_at postId s); [done|].
    by apply consistent_delete_post.
  - by rewrite list_comments_store.
  - destruct (create_comment_store postId body uuid4 now s)
      as [->|(u & c & Hp & Hf & ->)]; [done|].
    by apply consistent_create_comment.
  - by rewrite get_comment_store.
  - destruct (update_comment_store postId commentId body now s)
      as [->|(u & c & ->)]; [done|]. by apply consistent_update_comment.
  - rewrite delete_comment_run.
    destruct (filter _ (comments s)) as [|row rows] eqn:Hf; [done|].
    apply consistent_delete_comment; [done|]. by rewrite Hf.
  - destruct (like_post_store postId body s) as [->|(u & Hp & Hf & ->)];
      [done|]. by apply consistent_like_post.
  - destruct (unlike_post_store postId body s) as [->|(u & Hf & ->)];
      [done|]. by apply consistent_unlike_post.
Qed.

Lemma reachable_consistent s : reachable s → consistent s.
Proof.
  induction 1 as [|s r _ IH]; [apply consistent_empty|].
  by apply consistent_serve.
Qed.

(** ** The handlers on bodies of strings *)

Lemma truthy_str (u : string) : truthy (PStr u) = true ↔ u ≠ "".
Proof.
  simpl. destruct (String.eqb_spec u ""); simpl; split; congruence.
Qed.

Lemma get_str (body : dict) (k u : string) :
  body !! k = Some (PStr u) → u ≠ "" → truthy (py_get body k) = true.
Proof. intros Hk Hu. unfold py_get. rewrite Hk. by apply truthy_str. Qed.

Lemma find_post_posts_at postId s p :
  find_post postId s = Some p → ∃ rows, posts_at postId s = p :: rows.
Proof.
  unfold find_post, fetchone. destruct (posts_at postId s) as [|q rows];
    [done|]. intros [= ->]. by exists rows.
Qed.

Lemma create_post_run body uuid4 now s u c :
  body !! "username" = Some (PStr u) → u ≠ "" →
  body !! "content" = Some (PStr c) → c ≠ "" →
  create_post body uuid4 now s =
    match posts_at uuid4 s with
    | [] =>
        (Ok (post_dict (mkPost uuid4 u c now now 0 0)),
         mkStore (posts s ++ [mkPost uuid4 u c now now 0 0])
                 (comments s) (likes s))
    | _ :: _ => (Raise IntegrityError, s)
    end.
Proof.
  intros Hu Tu Hc Tc. unfold create_post, posts_at.
  rewrite (get_str _ _ _ Hu Tu), (get_str _ _ _ Hc Tc). cbn [negb orb].
  unfold_db. rewrite Hu, Hc. reduce. cbn [sql_text]. reduce.
  by destruct (filter _ (posts s)).
Qed.

Lemma filter_fmap_key {A B} (f : A → B) (g : A → A) (b : B)
    `{EqDecision B} (l : list A) :
  (∀ x, f (g x) = f x) →
  filter (λ x, f x = b) (g <$> l) = g <$> filter (λ x, f x = b) l.
Proof.
  intros Hg. induction l as [|a l IH]; [done|].
  rewrite fmap_cons, !filter_cons, IH.
  destruct (decide (f (g a) = b)) as [H1|H1], (decide (f a = b)) as [H2|H2];
    try done; exfalso; rewrite Hg in H1; contradiction.
Qed.

Lemma update_post_run postId body now s u c :
  body !! "username" = Some (PStr u) → u ≠ "" →
  body !! "content" = Some (PStr c) → c ≠ "" →
  update_post postId body now s =
    match find_post postId s with
    | None => (Raise NotFound, s)
    | Some p =>
        (Ok (post_dict (set_post u c now postId p)),
         mkStore (set_post u c now postId <$> posts s) (comments s) (likes s))
    end.
Proof.
  intros Hu Tu Hc Tc. unfold update_post, find_post, posts_at.
  rewrite (get_str _ _ _ Hu Tu), (get_str _ _ _ Hc Tc). cbn [negb orb].
  unfold_db. rewrite Hu, Hc. reduce.
  destruct (filter _ (posts s)) as [|p rows] eqn:Hf; [done|].
  reduce. cbn [sql_text]. reduce.
  rewrite (filter_fmap_key p_id) by apply set_post_id.
  by rewrite Hf.
Qed.

Lemma create_comment_run postId body uuid4 now s u c :
  body !! "username" = Some (PStr u) → u ≠ "" →
  body !! "content" = Some (PStr c) → c ≠ "" →
  create_comment postId body uuid4 now s =
    match find_post postId s with
    | None => (Raise NotFound, s)
    | Some _ =>
        match filter (λ r, c_id r = uuid4) (comments s) with
        | [] =>
            (Ok (comment_dict (mkComment uuid4 postId u c now now)),
             mkStore (comments_plus postId <$> posts s)
                     (comments s ++ [mkComment uuid4 postId u c now now])
                     (likes s))
        | _ :: _ => (Raise IntegrityError, s)
        end
    end.
Proof.
  intros Hu Tu Hc Tc. unfold create_comment, find_post, posts_at.
  rewrite (get_str _ _ _ Hu Tu), (get_str _ _ _ Hc Tc). cbn [negb orb].
  unfold_db. rewrite Hu, Hc. reduce.
  destruct (filter _ (posts s)) as [|p rows] eqn:Hf; [done|].
  reduce. cbn [sql_text]. reduce.
  by destruct (filter _ (comments s)).
Qed.

Lemma like_post_run postId body s u :
  body !! "username" = Some (PStr u) → u ≠ "" →
  like_post postId body s =
    match find_post postId s with
    | None => (Raise NotFound, s)
    | Some _ =>
        match edges postId u s with
        | [] =>
            (Ok (mkResponse 201),
             mkStore (likes_plus postId <$> posts s) (comments s)
                     (likes s ++ [mkLike postId u]))
        | _ :: _ => (Ok (mkResponse 201), s)
        end
    end.
Proof.
  intros Hu Tu. unfold like_post, find_post, posts_at, edges.
  rewrite (get_str _ _ _ Hu Tu). cbn [negb].
  unfold_db. rewrite Hu. reduce.
  destruct (filter _ (posts s)) as [|p rows] eqn:Hf; [done|].
  reduce. cbn [sql_text]. reduce.
  by destruct (filter _ (likes s)).
Qed.

Lemma unlike_post_run postId body s u :
  body !! "username" = Some (PStr u) → u ≠ "" →
  unlike_post postId body s =
    match find_post postId s with
    | None => (Raise NotFound, s)
    | Some _ =>
        match edges postId u s with
        | [] => (Ok (mkResponse 204), s)
        | _ :: _ =>
            (Ok (mkResponse 204),
             mkStore (likes_minus postId <$> posts s) (comments s)
                     (filter (λ l, ¬ (l_postId l = postId ∧ l_username l = u))
                             (likes s)))
        end
    end.
Proof.
  intros Hu Tu. unfold unlike_post, find_post, posts_at, edges.
  rewrite (get_str _ _ _ Hu Tu). cbn [negb].
  unfold_db. rewrite Hu. reduce.
  destruct (filter _ (posts s)) as [|p rows] eqn:Hf; [done|].
  reduce. cbn [sql_text]. reduce.
  rewrite select_like_text.
  destruct (filter _ (likes s)); reduce; [done|].
  by rewrite delete_like_text.
Qed.

Lemma get_post_run postId s :
  get_post postId s =
    match find_post postId s with
    | None => (Raise NotFound, s)
    | Some p => (Ok (post_dict p), s)
    end.
Proof.
  unfold get_post, find_post, posts_at. unfold_db. reduce.
  by destruct (filter _ (posts s)).
Qed.

Lemma get_comment_run postId commentId s :
  get_comment postId commentId s =
    match find_comment postId commentId s with
    | None => (Raise NotFound, s)
    | Some c => (Ok (comment_dict c), s)
    end.
Proof.
  unfold get_comment, find_comment. unfold_db. reduce.
  by destruct (filter _ (comments s)).
Qed.

Lemma reachable_s_liked : reachable s_liked.
Proof. repeat apply reachable_serve. apply reachable_init. Qed.

Lemma reachable_s_commented : reachable s_commented.
Proof. apply reachable_serve, reachable_s_liked. Qed.

(** The scenario, request by request: the new post has both counters
    at 0; one like by [b] makes [likes] 1 and a second one leaves it at
    1; the comment makes [comments] 1; after [delete_post] neither the
    post nor its comment is found. *)
Example scenario :
  (post_dict <$> find_post "p1" s_posted) ≫= (λ d, d !! "likes") = Some (PInt 0) ∧
  (post_dict <$> find_post "p1" s_posted) ≫= (λ d, d !! "comments") = Some (PInt 0) ∧
  p_likes <$> find_post "p1" s_liked = Some 1 ∧
  like_post "p1" body_b s_liked = (Ok (mkResponse 201), s_liked) ∧
  p_comments <$> find_post "p1" s_commented = Some 1 ∧
  fst (delete_post "p1" s_commented) = Ok (mkResponse 204) ∧
  fst (get_post "p1" (snd (delete_post "p1" s_commented))) = Raise NotFound ∧
  fst (get_comment "p1" "c1" (snd (delete_post "p1" s_commented))) =
    Raise NotFound.
Proof. repeat split; vm_compute; reflexivity. Qed.

(** Taking the comment and the like back brings both counters of [p1]
    back to 0, and a second [unlike_post] finds no edge and changes
    nothing. *)
Example scenario_undone :
  delete_comment "p1" "c1" s_commented =
    (Ok (mkResponse 204),
     mkStore [mkPost "p1" "a" "hi" "t0" "t0" 1 0] [] [mkLike "p1" "b"]) ∧
  unlike_post "p1" body_b (snd (delete_comment "p1" "c1" s_commented)) =
    (Ok (mkResponse 204),
     mkStore [mkPost "p1" "a" "hi" "t0" "t0" 0 0] [] []) ∧
  unlike_post "p1" body_b (mkStore [mkPost "p1" "a" "hi" "t0" "t0" 0 0] [] []) =
    (Ok (mkResponse 204),
     mkStore [mkPost "p1" "a" "hi" "t0" "t0" 0 0] [] []).
Proof. repeat split; vm_compute; reflexivity. Qed.

(** ** The claims *)

(** C1.  In every state the requests can reach, every post's [likes]
    equals the number of Like-edges with its id as [postId] and its
    [comments] the number of Comment rows with its id as [postId]. *)
Theorem counters_match_rows (s : store) (p : Post) :
  reachable s → p ∈ posts s →
  p_likes p = Z.of_nat (length (likes_of (p_id p) s)) ∧
  p_comments p = Z.of_nat (length (comments_of (p_id p) s)).
Proof.
  intros Hs Hp. by apply (reachable_consistent s Hs).
Qed.

Lemma counters_match_rows_witness :
  p_likes row_p1 = Z.of_nat (length (likes_of "p1" s_commented)) ∧
  p_comments row_p1 = Z.of_nat (length (comments_of "p1" s_commented)).
Proof.
  apply (counters_match_rows s_commented row_p1).
  - repeat apply reachable_serve. apply reachable_init.
  - vm_compute. apply list_elem_of_here.
Defined.

Lemma find_post_id postId s p : find_post postId s = Some p → p_id p = postId.
Proof.
  intros Hf. apply find_post_posts_at in Hf as [rows Hf].
  assert (Hin : p ∈ posts_at postId s) by (rewrite Hf; left).
  unfold posts_at in Hin. by apply list_elem_of_filter in Hin as [? _].
Qed.

Lemma find_post_fmap (g : Post → Post) postId s cs ls :
  (∀ p, p_id (g p) = p_id p) →
  find_post postId (mkStore (g <$> posts s) cs ls) = g <$> find_post postId s.
Proof.
  intros Hg. unfold find_post, posts_at, fetchone. simpl.
  rewrite (filter_fmap_key p_id) by done.
  by destruct (filter _ (posts s)).
Qed.

(** A key selects at most one row of a table that holds no row twice. *)
Lemma NoDup_all_equal {A} (l : list A) (a : A) :
  NoDup l → (∀ x, x ∈ l → x = a) → (length l ≤ 1)%nat.
Proof.
  intros Hnd Hall. destruct l as [|x [|y l]]; simpl; [lia..|].
  exfalso. apply NoDup_cons in Hnd as [Hx _]. apply Hx.
  rewrite (Hall x), <- (Hall y); [left | right; left | left].
Qed.

Lemma edges_unique postId u s :
  NoDup (likes s) → (length (edges postId u s) ≤ 1)%nat.
Proof.
  intros Hnd. apply (NoDup_all_equal _ (mkLike postId u)).
  - by apply NoDup_filter.
  - intros [xp xu] Hx. apply list_elem_of_filter in Hx as [[Hp Hu] _].
    simpl in *. congruence.
Qed.

(** C2, as amended.  On an existing post and a non-empty username, two
    [like_post] calls in a row both return 201, the second one changes
    nothing, and exactly one Like-edge keyed [(postId, username)] is
    left; the post's [likes] ends 1 above its value before the first
    call when no such edge existed before it, and at that value when
    one did. *)
Theorem like_twice (s : store) (postId : string) (body : dict) (u : string)
    (p : Post) :
  reachable s →
  find_post postId s = Some p →
  body !! "username" = Some (PStr u) → u ≠ "" →
  ∃ s1 p2,
    like_post postId body s = (Ok (mkResponse 201), s1) ∧
    like_post postId body s1 = (Ok (mkResponse 201), s1) ∧
    length (edges postId u s1) = 1%nat ∧
    find_post postId s1 = Some p2 ∧
    p_likes p2 =
      p_likes p + (if decide (edges postId u s = []) then 1 else 0).
Proof.
  intros Hs Hp Hu Tu.
  destruct (reachable_consistent s Hs) as ((_ & _ & Kl) & _ & _).
  rewrite (like_post_run postId body s u Hu Tu), Hp.
  destruct (edges postId u s) as [|e es] eqn:He.
  - eexists _, (likes_plus postId p).
    assert (Hp' : find_post postId
              (mkStore (likes_plus postId <$> posts s) (comments s)
                       (likes s ++ [mkLike postId u])) =
            Some (likes_plus postId p)).
    { rewrite find_post_fmap by apply likes_plus_id. by rewrite Hp. }
    assert (He' : edges postId u
              (mkStore (likes_plus postId <$> posts s) (comments s)
                       (likes s ++ [mkLike postId u])) = [mkLike postId u]).
    { unfold edges in *. simpl. rewrite filter_app, He, filter_cons, filter_nil.
      simpl. by rewrite decide_True. }
    split; [done|]. rewrite (like_post_run _ _ _ u Hu Tu), Hp', He'.
    repeat split; try done.
    unfold likes_plus. rewrite decide_True by by eapply find_post_id.
    reflexivity.
  - exists s, p. rewrite (like_post_run postId body s u Hu Tu), Hp, He.
    repeat split; try done.
    + pose proof (edges_unique postId u s Kl) as Hle.
      rewrite He in *. simpl in *. lia.
    + rewrite decide_False by done. lia.
Qed.

Lemma like_twice_witness :
  ∃ s1 p2,
    like_post "p1" body_b s_commented = (Ok (mkResponse 201), s1) ∧
    like_post "p1" body_b s1 = (Ok (mkResponse 201), s1) ∧
    length (edges "p1" "b" s1) = 1%nat ∧
    find_post "p1" s1 = Some p2 ∧
    p_likes p2 =
      p_likes row_p1 + (if decide (edges "p1" "b" s_commented = []) then 1 else 0).
Proof.
  apply (like_twice s_commented "p1" body_b "b" row_p1).
  - repeat apply reachable_serve. apply reachable_init.
  - vm_compute. reflexivity.
  - vm_compute. reflexivity.
  - discriminate.
Defined.

(** C2, as stated, fails where the user already likes the post: [b]
    likes [p1] in [s_liked], whose counter is 1; two more [like_post]
    calls by [b] succeed and leave one edge, but the counter stays 1
    and is not 1 greater than before the first of them. *)
Lemma like_twice_counterexample :
  (reachable s_liked ∧
   find_post "p1" s_liked = Some (mkPost "p1" "a" "hi" "t0" "t0" 1 0) ∧
   body_b !! "username" = Some (PStr "b") ∧ "b" ≠ "") ∧
  ¬ ∃ s1 s2 p2,
      like_post "p1" body_b s_liked = (Ok (mkResponse 201), s1) ∧
      like_post "p1" body_b s1 = (Ok (mkResponse 201), s2) ∧
      length (edges "p1" "b" s2) = 1%nat ∧
      find_post "p1" s2 = Some p2 ∧
      p_likes p2 = 1 + 1.
Proof.
  split.
  - split; [exact reachable_s_liked|].
    repeat split; try (vm_compute; reflexivity). discriminate.
  - intros (s1 & s2 & p2 & H1 & H2 & _ & Hp2 & Hl).
    assert (E1 : like_post "p1" body_b s_liked = (Ok (mkResponse 201), s_liked))
      by (vm_compute; reflexivity).
    rewrite E1 in H1. injection H1 as <-.
    rewrite E1 in H2. injection H2 as <-.
    assert (E2 : find_post "p1" s_liked =
                 Some (mkPost "p1" "a" "hi" "t0" "t0" 1 0))
      by (vm_compute; reflexivity).
    rewrite E2 in Hp2. injection Hp2 as <-. simpl in Hl. lia.
Qed.

(** C3.  Unliking a pair that has no Like-edge, on an existing post and
    with a non-empty username, returns 204 and changes nothing (the
    post's [likes] included); and no post of a reachable state has a
    negative [likes]. *)
Theorem unlike_absent_edge :
  (∀ (s : store) (postId : string) (body : dict) (u : string) (p : Post),
     find_post postId s = Some p →
     body !! "username" = Some (PStr u) → u ≠ "" →
     edges postId u s = [] →
     unlike_post postId body s = (Ok (mkResponse 204), s)) ∧
  (∀ (s : store) (p : Post), reachable s → p ∈ posts s → 0 ≤ p_likes p).
Proof.
  split.
  - intros s postId body u p Hp Hu Tu He.
    by rewrite (unlike_post_run postId body s u Hu Tu), Hp, He.
  - intros s p Hs Hp.
    destruct (reachable_consistent s Hs) as (_ & _ & Cn).
    destruct (Cn p Hp) as [-> _]. lia.
Qed.

Lemma unlike_absent_edge_witness :
  unlike_post "p1" body_c s_commented = (Ok (mkResponse 204), s_commented) ∧
  0 ≤ p_likes row_p1.
Proof.
  split.
  - apply (proj1 unlike_absent_edge s_commented "p1" body_c "c" row_p1).
    + vm_compute. reflexivity.
    + vm_compute. reflexivity.
    + discriminate.
    + vm_compute. reflexivity.
  - apply (proj2 unlike_absent_edge s_commented row_p1).
    + repeat apply reachable_serve. apply reachable_init.
    + vm_compute. apply list_elem_of_here.
Defined.

(** C4.  [delete_post] of an existing post returns 204 and removes, in
    its one commit, the post and every comment and every like whose
    [postId] is its id, and nothing else; afterwards [get_post] of the
    id and [get_comment] under it raise [NotFound].  [delete_post] of
    an absent id raises [NotFound] and changes nothing. *)
Theorem delete_post_cascade :
  (∀ (s : store) (postId : string) (p : Post),
     find_post postId s = Some p →
     ∃ s',
       delete_post postId s = (Ok (mkResponse 204), s') ∧
       posts s' = filter (λ q, p_id q ≠ postId) (posts s) ∧
       comments s' = filter (λ c, c_postId c ≠ postId) (comments s) ∧
       likes s' = filter (λ l, l_postId l ≠ postId) (likes s) ∧
       posts_at postId s' = [] ∧
       comments_of postId s' = [] ∧
       likes_of postId s' = [] ∧
       get_post postId s' = (Raise NotFound, s') ∧
       ∀ commentId, get_comment postId commentId s' = (Raise NotFound, s')) ∧
  (∀ (s : store) (postId : string),
     find_post postId s = None →
     delete_post postId s = (Raise NotFound, s)).
Proof.
  split.
  - intros s postId p Hp. apply find_post_posts_at in Hp as [rows Hp].
    eexists. rewrite delete_post_run, Hp. split; [reflexivity|].
    assert (Hposts : posts_at postId
      (mkStore (filter (λ q, p_id q ≠ postId) (posts s))
               (filter (λ c, c_postId c ≠ postId) (comments s))
               (filter (λ l, l_postId l ≠ postId) (likes s))) = []).
    { apply filter_empty. simpl. intros q Hq.
      by apply list_elem_of_filter in Hq as [? _]. }
    assert (Hcomments : comments_of postId
      (mkStore (filter (λ q, p_id q ≠ postId) (posts s))
               (filter (λ c, c_postId c ≠ postId) (comments s))
               (filter (λ l, l_postId l ≠ postId) (likes s))) = []).
    { apply filter_empty. simpl. intros q Hq.
      by apply list_elem_of_filter in Hq as [? _]. }
    repeat split; try done.
    + apply filter_empty. simpl. intros q Hq.
      by apply list_elem_of_filter in Hq as [? _].
    + rewrite get_post_run. unfold find_post. by rewrite Hposts.
    + intros commentId. rewrite get_comment_run. unfold find_comment.
      replace (filter _ _) with (@nil Comment); [done|].
      symmetry. apply filter_empty. simpl. intros c Hc [_ Hpost].
      by apply list_elem_of_filter in Hc as [? _].
  - intros s postId Hp. rewrite delete_post_run.
    unfold find_post, fetchone in Hp. by destruct (posts_at postId s).
Qed.

Lemma delete_post_cascade_witness :
  (∃ s',
     delete_post "p1" s_commented = (Ok (mkResponse 204), s') ∧
     posts s' = filter (λ q, p_id q ≠ "p1") (posts s_commented) ∧
     comments s' = filter (λ c, c_postId c ≠ "p1") (comments s_commented) ∧
     likes s' = filter (λ l, l_postId l ≠ "p1") (likes s_commented) ∧
     posts_at "p1" s' = [] ∧
     comments_of "p1" s' = [] ∧
     likes_of "p1" s' = [] ∧
     get_post "p1" s' = (Raise NotFound, s') ∧
     ∀ commentId, get_comment "p1" commentId s' = (Raise NotFound, s')) ∧
  delete_post "p2" s_commented = (Raise NotFound, s_commented).
Proof.
  split.
  - apply (proj1 delete_post_cascade s_commented "p1" row_p1).
    vm_compute. reflexivity.
  - apply (proj2 delete_post_cascade s_commented "p2").
    vm_compute. reflexivity.
Defined.

(** C5.  In every state the requests can reach, the [postId] of every
    comment and of every like is the id of a post of the store. *)
Theorem no_orphans (s : store) :
  reachable s →
  (∀ c, c ∈ comments s → ∃ p, p ∈ posts s ∧ p_id p = c_postId c) ∧
  (∀ l, l ∈ likes s → ∃ p, p ∈ posts s ∧ p_id p = l_postId l).
Proof.
  intros Hs. by destruct (reachable_consistent s Hs) as (_ & R & _).
Qed.

Lemma no_orphans_witness :
  (∀ c, c ∈ comments s_commented →
     ∃ p, p ∈ posts s_commented ∧ p_id p = c_postId c) ∧
  (∀ l, l ∈ likes s_commented →
     ∃ p, p ∈ posts s_commented ∧ p_id p = l_postId l).
Proof.
  apply (no_orphans s_commented).
  repeat apply reachable_serve. apply reachable_init.
Defined.

Lemma create_post_invalid body uuid4 now s :
  truthy (py_get body "username") = false ∨
  truthy (py_get body "content") = false →
  create_post body uuid4 now s = (Raise InvalidInput, s).
Proof.
  unfold create_post. intros [-> | ->]; [done|].
  by rewrite orb_true_r.
Qed.

(** C6.  [create_post] raises [InvalidInput], storing nothing, when
    [username] or [content] is missing or empty (falsy).  On non-empty
    strings and an id that [uuid4] draws fresh it returns the new post
    and appends it to [posts]: its id is the id drawn, both timestamps
    are [now], both counters are 0.  And whenever it returns a post at
    all, that post's id named no post before and names exactly the new
    row after. *)
Theorem create_post_spec (body : dict) (uuid4 now : string) (s : store) :
  (truthy (py_get body "username") = false ∨
   truthy (py_get body "content") = false →
   create_post body uuid4 now s = (Raise InvalidInput, s)) ∧
  (∀ u c,
     body !! "username" = Some (PStr u) → u ≠ "" →
     body !! "content" = Some (PStr c) → c ≠ "" →
     posts_at uuid4 s = [] →
     ∃ post s',
       create_post body uuid4 now s = (Ok post, s') ∧
       post = post_dict (mkPost uuid4 u c now now 0 0) ∧
       post !! "id" = Some (PStr uuid4) ∧
       post !! "createdAt" = post !! "updatedAt" ∧
       post !! "likes" = Some (PInt 0) ∧
       post !! "comments" = Some (PInt 0) ∧
       posts s' = posts s ++ [mkPost uuid4 u c now now 0 0] ∧
       comments s' = comments s ∧ likes s' = likes s ∧
       get_post uuid4 s' = (Ok post, s')) ∧
  (∀ post s',
     create_post body uuid4 now s = (Ok post, s') →
     posts_at uuid4 s = [] ∧
     ∃ row, posts_at uuid4 s' = [row] ∧ posts s' = posts s ++ [row] ∧
       p_createdAt row = p_updatedAt row ∧
       p_likes row = 0 ∧ p_comments row = 0).
Proof.
  split; [apply create_post_invalid|]. split.
  - intros u c Hu Tu Hc Tc Hfresh.
    rewrite (create_post_run body uuid4 now s u c Hu Tu Hc Tc), Hfresh.
    eexists _, _. split; [reflexivity|].
    repeat split; try done.
    rewrite get_post_run. unfold find_post, posts_at in *. simpl.
    rewrite filter_app, Hfresh, filter_cons, filter_nil.
    simpl. by rewrite decide_True.
  - intros post s'. unfold create_post.
    destruct (truthy (py_get body "username")) eqn:Hu; [|done].
    destruct (truthy (py_get body "content")) eqn:Hc; [|done].
    apply truthy_get in Hu as (vu & Hu & Tu).
    apply truthy_get in Hc as (vc & Hc & Tc).
    cbn [negb orb]. unfold_db. rewrite Hu, Hc. reduce.
    destruct (sql_text vu) as [[u|]|e]; reduce; [|done..].
    destruct (sql_text vc) as [[c|]|e]; reduce; [|done..].
    destruct (filter _ (posts s)) as [|row rows] eqn:Hf; reduce; [|done].
    intros [= <- <-]. split; [done|].
    exists (mkPost uuid4 u c now now 0 0). simpl.
    repeat split; try done.
    unfold posts_at. simpl. rewrite filter_app, Hf, filter_cons, filter_nil.
    simpl. by rewrite decide_True.
Qed.

Lemma create_post_spec_witness :
  create_post (∅ : dict) "p2" "t2" s_commented =
    (Raise InvalidInput, s_commented) ∧
  (∃ post s',
     create_post body_a "p2" "t2" s_commented = (Ok post, s') ∧
     post = post_dict (mkPost "p2" "a" "hi" "t2" "t2" 0 0) ∧
     post !! "id" = Some (PStr "p2") ∧
     post !! "createdAt" = post !! "updatedAt" ∧
     post !! "likes" = Some (PInt 0) ∧
     post !! "comments" = Some (PInt 0) ∧
     posts s' = posts s_commented ++ [mkPost "p2" "a" "hi" "t2" "t2" 0 0] ∧
     comments s' = comments s_commented ∧ likes s' = likes s_commented ∧
     get_post "p2" s' = (Ok post, s')) ∧
  posts_at "p2" s_commented = [].
Proof.
  split; [|split].
  - apply (proj1 (create_post_spec ∅ "p2" "t2" s_commented)).
    left. vm_compute. reflexivity.
  - apply (proj1 (proj2 (create_post_spec body_a "p2" "t2" s_commented)) "a" "hi").
    + vm_compute. reflexivity.
    + discriminate.
    + vm_compute. reflexivity.
    + discriminate.
    + vm_compute. reflexivity.
  - eapply (proj2 (proj2 (create_post_spec body_a "p2" "t2" s_commented))).
    vm_compute. reflexivity.
Defined.

(** C7.  [update_post] of an existing post with non-empty strings
    returns the updated row; the row has the new [username] and
    [content] and [updatedAt = now], and its [id], [createdAt], [likes]
    and [comments] are the old ones; the rows of [posts] under another
    id, the comments and the likes are unchanged. *)
Theorem update_post_frame (s : store) (postId : string) (body : dict)
    (u c now : string) (p : Post) :
  find_post postId s = Some p →
  body !! "username" = Some (PStr u) → u ≠ "" →
  body !! "content" = Some (PStr c) → c ≠ "" →
  ∃ p' s',
    update_post postId body now s = (Ok (post_dict p'), s') ∧
    find_post postId s' = Some p' ∧
    p_username p' = u ∧ p_content p' = c ∧ p_updatedAt p' = now ∧
    p_id p' = p_id p ∧ p_createdAt p' = p_createdAt p ∧
    p_likes p' = p_likes p ∧ p_comments p' = p_comments p ∧
    length (posts s') = length (posts s) ∧
    (∀ (i : nat) q, posts s !! i = Some q → p_id q ≠ postId →
       posts s' !! i = Some q) ∧
    comments s' = comments s ∧
    likes s' = likes s.
Proof.
  intros Hp Hu Tu Hc Tc.
  rewrite (update_post_run postId body now s u c Hu Tu Hc Tc), Hp.
  pose proof (find_post_id _ _ _ Hp) as Hid.
  assert (Hrow : set_post u c now postId p =
            mkPost (p_id p) u c (p_createdAt p) now (p_likes p) (p_comments p)).
  { unfold set_post. by rewrite decide_True. }
  exists (mkPost (p_id p) u c (p_createdAt p) now (p_likes p) (p_comments p)),
         (mkStore (set_post u c now postId <$> posts s) (comments s) (likes s)).
  split; [by rewrite Hrow|].
  split; [rewrite find_post_fmap by apply set_post_id; by rewrite Hp, <- Hrow|].
  cbn [p_id p_username p_content p_createdAt p_updatedAt p_likes p_comments
       posts comments likes].
  repeat split.
  - apply length_fmap.
  - intros i q Hq Hne. rewrite list_lookup_fmap, Hq. simpl.
    unfold set_post. by rewrite decide_False.
Qed.

Lemma update_post_frame_witness :
  ∃ p' s',
    update_post "p1" body_c "t9" s_commented = (Ok (post_dict p'), s') ∧
    find_post "p1" s' = Some p' ∧
    p_username p' = "c" ∧ p_content p' = "ok" ∧ p_updatedAt p' = "t9" ∧
    p_id p' = p_id row_p1 ∧ p_createdAt p' = p_createdAt row_p1 ∧
    p_likes p' = p_likes row_p1 ∧ p_comments p' = p_comments row_p1 ∧
    length (posts s') = length (posts s_commented) ∧
    (∀ (i : nat) q, posts s_commented !! i = Some q → p_id q ≠ "p1" →
       posts s' !! i = Some q) ∧
    comments s' = comments s_commented ∧
    likes s' = likes s_commented.
Proof.
  apply (update_post_frame s_commented "p1" body_c "c" "ok" "t9" row_p1).
  - vm_compute. reflexivity.
  - vm_compute. reflexivity.
  - discriminate.
  - vm_compute. reflexivity.
  - discriminate.
Defined.

Lemma create_comment_invalid postId body uuid4 now s :
  truthy (py_get body "username") = false ∨
  truthy (py_get body "content") = false →
  create_comment postId body uuid4 now s = (Raise InvalidInput, s).
Proof.
  unfold create_comment. intros [-> | ->]; [done|].
  by rewrite orb_true_r.
Qed.

(** C8.  [create_comment] with a non-empty (truthy) [username] and
    [content] on a [postId] that names no post raises [NotFound] and
    leaves the store as it was; with a missing or empty field it raises
    [InvalidInput], likewise without a change; and the store is
    unchanged whenever it raises [InvalidInput]. *)
Theorem create_comment_errors (postId : string) (body : dict)
    (uuid4 now : string) (s : store) :
  (truthy (py_get body "username") = true →
   truthy (py_get body "content") = true →
   find_post postId s = None →
   create_comment postId body uuid4 now s = (Raise NotFound, s)) ∧
  (truthy (py_get body "username") = false ∨
   truthy (py_get body "content") = false →
   create_comment postId body uuid4 now s = (Raise InvalidInput, s)) ∧
  (∀ s', create_comment postId body uuid4 now s = (Raise InvalidInput, s') →
     s' = s).
Proof.
  split; [|split; [apply create_comment_invalid|]].
  - intros Tu Tc Hp. unfold create_comment. rewrite Tu, Tc. cbn [negb orb].
    apply truthy_get in Tu as (vu & Hu & _).
    apply truthy_get in Tc as (vc & Hc & _).
    unfold find_post, posts_at, fetchone in Hp.
    unfold_db. rewrite Hu, Hc. reduce.
    by destruct (filter _ (posts s)).
  - intros s'. unfold create_comment.
    destruct (truthy (py_get body "username")) eqn:Hu; [|by intros [= <-]].
    destruct (truthy (py_get body "content")) eqn:Hc; [|by intros [= <-]].
    apply truthy_get in Hu as (vu & Hu & Tu).
    apply truthy_get in Hc as (vc & Hc & Tc).
    cbn [negb orb]. unfold_db. rewrite Hu, Hc. reduce.
    destruct (filter _ (posts s)) as [|row rows]; reduce; [done|].
    destruct (sql_text vu) as [[u|]|e]; reduce; [|done|by intros [= _ <-]].
    destruct (sql_text vc) as [[c|]|e]; reduce; [|done|by intros [= _ <-]].
    by destruct (filter _ (comments s)).
Qed.

Lemma create_comment_errors_witness :
  create_comment "p2" body_c "c2" "t2" s_commented =
    (Raise NotFound, s_commented) ∧
  create_comment "p1" body_b "c2" "t2" s_commented =
    (Raise InvalidInput, s_commented).
Proof.
  split.
  - apply (proj1 (create_comment_errors "p2" body_c "c2" "t2" s_commented)).
    + vm_compute. reflexivity.
    + vm_compute. reflexivity.
    + vm_compute. reflexivity.
  - apply (proj1 (proj2 (create_comment_errors "p1" body_b "c2" "t2" s_commented))).
    right. vm_compute. reflexivity.
Defined.

Lemma comments_minus_other postId q :
  p_id q ≠ postId → comments_minus postId q = q.
Proof. intros Hne. unfold comments_minus. rewrite decide_False; tauto. Qed.

(** C9.  [delete_comment] raises [NotFound], changing nothing, when no
    comment has both keys.  Otherwise it returns 204, removes the
    comments with both keys and no other row, and takes 1 off the
    [comments] of the post with that id when it is above 0; at 0 the
    counter stays 0 and the call succeeds all the same. *)
Theorem delete_comment_spec (s : store) (postId commentId : string) :
  (find_comment postId commentId s = None →
   delete_comment postId commentId s = (Raise NotFound, s)) ∧
  (∀ c, find_comment postId commentId s = Some c →
     ∃ s',
       delete_comment postId commentId s = (Ok (mkResponse 204), s') ∧
       comments s' =
         filter (λ r, ¬ (c_id r = commentId ∧ c_postId r = postId))
                (comments s) ∧
       find_comment postId commentId s' = None ∧
       likes s' = likes s ∧
       length (posts s') = length (posts s) ∧
       (∀ (i : nat) q, posts s !! i = Some q → p_id q ≠ postId →
          posts s' !! i = Some q) ∧
       (∀ p, find_post postId s = Some p →
          ∃ p', find_post postId s' = Some p' ∧
            p_comments p' =
              (if decide (p_comments p > 0) then p_comments p - 1
               else p_comments p) ∧
            (p_comments p = 0 → p_comments p' = 0) ∧
            (0 ≤ p_comments p → 0 ≤ p_comments p') ∧
            p_id p' = p_id p ∧ p_username p' = p_username p ∧
            p_content p' = p_content p ∧ p_createdAt p' = p_createdAt p ∧
            p_updatedAt p' = p_updatedAt p ∧ p_likes p' = p_likes p)).
Proof.
  split.
  - intros Hc. rewrite delete_comment_run.
    unfold find_comment, fetchone in Hc. by destruct (filter _ (comments s)).
  - intros c Hc. rewrite delete_comment_run.
    unfold find_comment, fetchone in Hc.
    destruct (filter _ (comments s)) as [|row rows]; [done|].
    eexists. split; [reflexivity|].
    cbn [posts comments likes]. repeat split.
    + unfold find_comment, fetchone. cbn [comments].
      replace (filter _ (filter _ _)) with (@nil Comment); [done|].
      symmetry. apply filter_empty. intros r Hr Hkeys.
      by apply list_elem_of_filter in Hr as [? _].
    + apply length_fmap.
    + intros i q Hq Hne. rewrite list_lookup_fmap, Hq. simpl.
      by rewrite comments_minus_other.
    + intros p Hp. exists (comments_minus postId p).
      rewrite find_post_fmap by apply comments_minus_id. rewrite Hp.
      split; [done|]. pose proof (find_post_id _ _ _ Hp) as Hid.
      unfold comments_minus.
      destruct (decide (p_comments p > 0)) as [Hpos|Hpos].
      * rewrite decide_True by done. simpl. repeat split; lia.
      * rewrite decide_False by tauto. repeat split; lia.
Qed.

Lemma delete_comment_spec_witness :
  delete_comment "p1" "c2" s_drifted = (Raise NotFound, s_drifted) ∧
  ∃ s',
    delete_comment "p1" "c1" s_drifted = (Ok (mkResponse 204), s') ∧
    comments s' =
      filter (λ r, ¬ (c_id r = "c1" ∧ c_postId r = "p1")) (comments s_drifted) ∧
    find_comment "p1" "c1" s' = None ∧
    likes s' = likes s_drifted ∧
    length (posts s') = length (posts s_drifted) ∧
    (∀ (i : nat) q, posts s_drifted !! i = Some q → p_id q ≠ "p1" →
       posts s' !! i = Some q) ∧
    (∀ p, find_post "p1" s_drifted = Some p →
       ∃ p', find_post "p1" s' = Some p' ∧
         p_comments p' =
           (if decide (p_comments p > 0) then p_comments p - 1
            else p_comments p) ∧
         (p_comments p = 0 → p_comments p' = 0) ∧
         (0 ≤ p_comments p → 0 ≤ p_comments p') ∧
         p_id p' = p_id p ∧ p_username p' = p_username p ∧
         p_content p' = p_content p ∧ p_createdAt p' = p_createdAt p ∧
         p_updatedAt p' = p_updatedAt p ∧ p_likes p' = p_likes p).
Proof.
  split.
  - apply (proj1 (delete_comment_spec s_drifted "p1" "c2")).
    vm_compute. reflexivity.
  - apply (proj2 (delete_comment_spec s_drifted "p1" "c1") row_c1).
    vm_compute. reflexivity.
Defined.

(** ** Validation *)

Lemma sql_text_exn v e : sql_text v = Raise e → e ≠ InvalidInput.
Proof.
  destruct v; simpl; try discriminate; try (by intros [= <-]).
  case_match; [discriminate | by intros [= <-]].
Qed.

Ltac bind_param v :=
  let E := fresh "E" in
  destruct (sql_text v) as [[?|]|?] eqn:E; reduce;
  [ | try done | try (intros [= ->]; by apply sql_text_exn in E) ].

Ltac check2 body :=
  unfold rejected, falsy;
  let Hu := fresh "Hu" in
  let Hc := fresh "Hc" in
  destruct (truthy (py_get body "username")) eqn:Hu; [|by split; [left|]];
  destruct (truthy (py_get body "content")) eqn:Hc; [|by split; [right|]];
  apply truthy_get in Hu as (?vu & Hu & ?Tu);
  apply truthy_get in Hc as (?vc & Hc & ?Tc);
  cbn [negb orb]; unfold_db; rewrite ?Hu, ?Hc; reduce;
  split; [|by intros [?|?]].

Lemma create_post_rejected body uuid4 now s :
  rejected (create_post body uuid4 now s) ↔
  falsy body "username" ∨ falsy body "content".
Proof.
  unfold create_post. check2 body.
  bind_param vu. bind_param vc.
  by destruct (filter _ (posts s)).
Qed.

Lemma update_post_rejected postId body now s :
  rejected (update_post postId body now s) ↔
  falsy body "username" ∨ falsy body "content".
Proof.
  unfold update_post. check2 body.
  destruct (filter _ (posts s)) as [|row rows]; reduce; [done|].
  bind_param vu. bind_param vc.
  by destruct (head _).
Qed.

Lemma create_comment_rejected postId body uuid4 now s :
  rejected (create_comment postId body uuid4 now s) ↔
  falsy body "username" ∨ falsy body "content".
Proof.
  unfold create_comment. check2 body.
  destruct (filter _ (posts s)) as [|row rows]; reduce; [done|].
  bind_param vu. bind_param vc.
  by destruct (filter _ (comments s)).
Qed.

Lemma update_comment_rejected postId commentId body now s :
  rejected (update_comment postId commentId body now s) ↔
  falsy body "username" ∨ falsy body "content".
Proof.
  unfold update_comment. check2 body.
  destruct (filter _ (comments s)) as [|row rows]; reduce; [done|].
  bind_param vu. bind_param vc.
  by destruct (head _).
Qed.

Lemma like_post_rejected postId body s :
  rejected (like_post postId body s) ↔ falsy body "username".
Proof.
  unfold like_post, rejected, falsy.
  destruct (truthy (py_get body "username")) eqn:Hu; [|done].
  apply truthy_get in Hu as (vu & Hu & Tu).
  cbn [negb]. unfold_db. rewrite Hu. reduce. split; [|done].
  destruct (filter _ (posts s)) as [|row rows]; reduce; [done|].
  destruct (sql_text vu) as [[u|]|e] eqn:E; reduce; [|done|].
  - by destruct (filter _ (likes s)).
  - destruct (decide (e = IntegrityError)); reduce; [done|].
    intros [= ->]. by apply sql_text_exn in E.
Qed.

Lemma unlike_post_rejected postId body s :
  rejected (unlike_post postId body s) ↔ falsy body "username".
Proof.
  unfold unlike_post, rejected, falsy.
  destruct (truthy (py_get body "username")) eqn:Hu; [|done].
  apply truthy_get in Hu as (vu & Hu & Tu).
  cbn [negb]. unfold_db. rewrite Hu. reduce. split; [|done].
  destruct (filter _ (posts s)) as [|row rows]; reduce; [done|].
  destruct (sql_text vu) as [[u|]|e] eqn:E; reduce.
  - by destruct (filter _ (likes s)).
  - by destruct (filter _ (likes s)).
  - intros [= ->]. by apply sql_text_exn in E.
Qed.

(** C10.  The validated handlers answer [InvalidInput] exactly when a
    field they require is falsy.  A missing key, [null] and the empty
    string are falsy; every non-empty string is not, one of blanks
    included: [create_post] with the username made of one blank stores
    that username as it is. *)
Theorem validation_exact :
  (∀ (body : dict) (k : string),
     body !! k = None ∨ body !! k = Some PNone ∨ body !! k = Some (PStr "") →
     falsy body k) ∧
  (∀ (body : dict) (k u : string),
     body !! k = Some (PStr u) → (falsy body k ↔ u = "")) ∧
  (∀ body uuid4 now s,
     rejected (create_post body uuid4 now s) ↔
     falsy body "username" ∨ falsy body "content") ∧
  (∀ postId body now s,
     rejected (update_post postId body now s) ↔
     falsy body "username" ∨ falsy body "content") ∧
  (∀ postId body uuid4 now s,
     rejected (create_comment postId body uuid4 now s) ↔
     falsy body "username" ∨ falsy body "content") ∧
  (∀ postId commentId body now s,
     rejected (update_comment postId commentId body now s) ↔
     falsy body "username" ∨ falsy body "content") ∧
  (∀ postId body s,
     rejected (like_post postId body s) ↔ falsy body "username") ∧
  (∀ postId body s,
     rejected (unlike_post postId body s) ↔ falsy body "username") ∧
  (∀ (body : dict) (c uuid4 now : string) (s : store),
     body !! "username" = Some (PStr " ") →
     body !! "content" = Some (PStr c) → c ≠ "" →
     posts_at uuid4 s = [] →
     ∃ post s' row,
       create_post body uuid4 now s = (Ok post, s') ∧
       post !! "username" = Some (PStr " ") ∧
       find_post uuid4 s' = Some row ∧
       p_username row = " ").
Proof.
  split; [|split].
  - intros body k [Hk|[Hk|Hk]]; unfold falsy, py_get; by rewrite Hk.
  - intros body k u Hk. unfold falsy, py_get. rewrite Hk. simpl.
    destruct (String.eqb_spec u ""); simpl; split; congruence.
  - split; [apply create_post_rejected|].
    split; [apply update_post_rejected|].
    split; [apply create_comment_rejected|].
    split; [apply update_comment_rejected|].
    split; [apply like_post_rejected|].
    split; [apply unlike_post_rejected|].
    intros body c uuid4 now s Hu Hc Tc Hfresh.
    assert (Tu : " " ≠ "") by discriminate.
    rewrite (create_post_run body uuid4 now s " " c Hu Tu Hc Tc), Hfresh.
    eexists _, _, (mkPost uuid4 " " c now now 0 0).
    split; [reflexivity|]. repeat split.
    unfold find_post, posts_at in *. simpl.
    rewrite filter_app, Hfresh, filter_cons, filter_nil.
    simpl. by rewrite decide_True.
Qed.

Lemma validation_exact_witness :
  falsy body_b "content" ∧
  (falsy body_b "username" ↔ "b" = "") ∧
  ∃ post s' row,
    create_post body_blank "p2" "t2" s_commented = (Ok post, s') ∧
    post !! "username" = Some (PStr " ") ∧
    find_post "p2" s' = Some row ∧
    p_username row = " ".
Proof.
  destruct validation_exact as (Hfalsy & Hstr & _ & _ & _ & _ & _ & _ & Hblank).
  split; [|split].
  - apply (Hfalsy body_b "content"). left. vm_compute. reflexivity.
  - apply (Hstr body_b "username" "b"). vm_compute. reflexivity.
  - apply (Hblank body_blank "hi" "p2" "t2" s_commented).
    + vm_compute. reflexivity.
    + vm_compute. reflexivity.
    + discriminate.
    + vm_compute. reflexivity.
Defined.

(** ** Beyond the claims: what every request does and does not do *)

Lemma head_filter_fmap_key {A B} (f : A → B) (g : A → A) (b : B)
    `{EqDecision B} (l : list A) :
  (∀ x, f (g x) = f x) →
  head (filter (λ x, f x = b) (g <$> l)) = g <$> head (filter (λ x, f x = b) l).
Proof.
  intros Hg. rewrite (filter_fmap_key f g b l Hg).
  by destruct (filter _ l).
Qed.

Lemma head_filter_set_comment u c now commentId postId (l : list Comment) :
  head (filter (λ r, c_id r = commentId ∧ c_postId r = postId)
               (set_comment u c now commentId postId <$> l)) =
  set_comment u c now commentId postId
    <$> head (filter (λ r, c_id r = commentId ∧ c_postId r = postId) l).
Proof.
  induction l as [|a l IH]; [done|].
  rewrite fmap_cons, !filter_cons.
  rewrite set_comment_id, set_comment_postId.
  by destruct (decide _).
Qed.

Lemma create_post_raises body uuid4 now s e :
  fst (create_post body uuid4 now s) = Raise e →
  snd (create_post body uuid4 now s) = s.
Proof.
  unfold create_post.
  destruct (truthy (py_get body "username")) eqn:Hu; [|done].
  destruct (truthy (py_get body "content")) eqn:Hc; [|done].
  apply truthy_get in Hu as (vu & Hu & Tu).
  apply truthy_get in Hc as (vc & Hc & Tc).
  cbn [negb orb]. unfold_db. rewrite Hu, Hc. reduce.
  destruct (sql_text vu) as [[u|]|e1]; reduce; [|done..].
  destruct (sql_text vc) as [[c|]|e2]; reduce; [|done..].
  by destruct (filter _ (posts s)).
Qed.

Lemma update_post_raises postId body now s e :
  fst (update_post postId body now s) = Raise e →
  snd (update_post postId body now s) = s.
Proof.
  unfold update_post.
  destruct (truthy (py_get body "username")) eqn:Hu; [|done].
  destruct (truthy (py_get body "content")) eqn:Hc; [|done].
  apply truthy_get in Hu as (vu & Hu & Tu).
  apply truthy_get in Hc as (vc & Hc & Tc).
  cbn [negb orb]. unfold_db. rewrite Hu, Hc. reduce.
  destruct (filter _ (posts s)) as [|row rows] eqn:Hf; reduce; [done|].
  destruct (sql_text vu) as [[u|]|e1]; reduce; [|done..].
  destruct (sql_text vc) as [[c|]|e2]; reduce; [|done..].
  rewrite (head_filter_fmap_key p_id) by apply set_post_id.
  by rewrite Hf.
Qed.

Lemma create_comment_raises postId body uuid4 now s e :
  fst (create_comment postId body uuid4 now s) = Raise e →
  snd (create_comment postId body uuid4 now s) = s.
Proof.
  unfold create_comment.
  destruct (truthy (py_get body "username")) eqn:Hu; [|done].
  destruct (truthy (py_get body "content")) eqn:Hc; [|done].
  apply truthy_get in Hu as (vu & Hu & Tu).
  apply truthy_get in Hc as (vc & Hc & Tc).
  cbn [negb orb]. unfold_db. rewrite Hu, Hc. reduce.
  destruct (filter _ (posts s)) as [|row rows] eqn:Hf; reduce; [done|].
  destruct (sql_text vu) as [[u|]|e1]; reduce; [|done..].
  destruct (sql_text vc) as [[c|]|e2]; reduce; [|done..].
  by destruct (filter _ (comments s)).
Qed.

Lemma update_comment_raises postId commentId body now s e :
  fst (update_comment postId commentId body now s) = Raise e →
  snd (update_comment postId commentId body now s) = s.
Proof.
  unfold update_comment.
  destruct (truthy (py_get body "username")) eqn:Hu; [|done].
  destruct (truthy (py_get body "content")) eqn:Hc; [|done].
  apply truthy_get in Hu as (vu & Hu & Tu).
  apply truthy_get in Hc as (vc & Hc & Tc).
  cbn [negb orb]. unfold_db. rewrite Hu, Hc. reduce.
  destruct (filter _ (comments s)) as [|row rows] eqn:Hf; reduce; [done|].
  destruct (sql_text vu) as [[u|]|e1]; reduce; [|done..].
  destruct (sql_text vc) as [[c|]|e2]; reduce; [|done..].
  rewrite head_filter_set_comment, Hf. done.
Qed.

Lemma like_post_raises postId body s e :
  fst (like_post postId body s) = Raise e →
  snd (like_post postId body s) = s.
Proof.
  unfold like_post.
  destruct (truthy (py_get body "username")) eqn:Hu; [|done].
  apply truthy_get in Hu as (vu & Hu & Tu).
  cbn [negb]. unfold_db. rewrite Hu. reduce.
  destruct (filter _ (posts s)) as [|row rows] eqn:Hf; reduce; [done|].
  destruct (sql_text vu) as [[u|]|e1]; reduce; [|done|].
  - by destruct (filter _ (likes s)).
  - by destruct (decide _).
Qed.

Lemma unlike_post_raises postId body s e :
  fst (unlike_post postId body s) = Raise e →
  snd (unlike_post postId body s) = s.
Proof.
  unfold unlike_post.
  destruct (truthy (py_get body "username")) eqn:Hu; [|done].
  apply truthy_get in Hu as (vu & Hu & Tu).
  cbn [negb]. unfold_db. rewrite Hu. reduce.
  destruct (filter _ (posts s)) as [|row rows] eqn:Hf; reduce; [done|].
  destruct (sql_text vu) as [[u|]|e1]; reduce; [| |done].
  - by destruct (filter _ (likes s)).
  - by destruct (filter _ (likes s)).
Qed.

(** X1.  The four [GET] handlers write nothing: whatever they answer,
    the database is the one they found. *)
Theorem get_requests_read_only (r : request) (s : store) :
  is_get r = true → serve r s = s.
Proof.
  destruct r; simpl; try discriminate; intros _.
  - done.
  - apply get_post_store.
  - apply list_comments_store.
  - apply get_comment_store.
Qed.

Lemma get_requests_read_only_witness :
  serve (ListComments "p1") s_commented = s_commented.
Proof. by apply (get_requests_read_only (ListComments "p1") s_commented). Defined.

(** X2.  A request that ends in an exception, whichever it is, has
    written nothing: the database is the one it found. *)
Theorem raising_request_writes_nothing (r : request) (s : store) (e : exn) :
  raises r s = Some e → serve r s = s.
Proof.
  assert (Hexn : ∀ A (x : result A), exn_of x = Some e → x = Raise e).
  { intros A [a|e'] [=]. by subst. }
  destruct r; cbn [raises serve]; intros Hr; apply Hexn in Hr.
  - done.
  - by eapply create_post_raises.
  - apply get_post_store.
  - by eapply update_post_raises.
  - rewrite delete_post_run in *. by destruct (posts_at postId s).
  - apply list_comments_store.
  - by eapply create_comment_raises.
  - apply get_comment_store.
  - by eapply update_comment_raises.
  - rewrite delete_comment_run in *. by destruct (filter _ (comments s)).
  - by eapply like_post_raises.
  - by eapply unlike_post_raises.
Qed.

Lemma raising_request_writes_nothing_witness :
  serve (CreateComment "p2" body_c "c2" "t2") s_commented = s_commented.
Proof.
  apply (raising_request_writes_nothing
           (CreateComment "p2" body_c "c2" "t2") s_commented NotFound).
  vm_compute. reflexivity.
Defined.

(** X3.  In every state the requests can reach the primary keys hold:
    no two rows of [posts] share an id, no two rows of [comments] share
    an id, and no (postId, username) pair occurs twice in [likes]. *)
Theorem primary_keys_hold (s : store) :
  reachable s →
  NoDup (p_id <$> posts s) ∧
  NoDup (c_id <$> comments s) ∧
  NoDup (likes s).
Proof.
  intros Hs. by destruct (reachable_consistent s Hs) as (K & _ & _).
Qed.

Lemma primary_keys_hold_witness :
  NoDup (p_id <$> posts s_commented) ∧
  NoDup (c_id <$> comments s_commented) ∧
  NoDup (likes s_commented).
Proof.
  apply (primary_keys_hold s_commented).
  repeat apply reachable_serve. apply reachable_init.
Defined.

(** ** Beyond the claims: round trips *)

Lemma fmap_fixed {A} (g : A → A) (l : list A) :
  (∀ x, x ∈ l → g x = x) → g <$> l = l.
Proof.
  intros Hg. induction l as [|a l IH]; [done|].
  rewrite fmap_cons, Hg by left. f_equal. apply IH.
  intros x Hx. apply Hg. by right.
Qed.

Lemma filter_all {A} (P : A → Prop) `{∀ x, Decision (P x)} (l : list A) :
  (∀ x, x ∈ l → P x) → filter P l = l.
Proof.
  intros HP. induction l as [|a l IH]; [done|].
  rewrite filter_cons_True by (apply HP; left). f_equal. apply IH.
  intros x Hx. apply HP. by right.
Qed.

Lemma likes_minus_plus postId q :
  0 ≤ p_likes q → likes_minus postId (likes_plus postId q) = q.
Proof.
  intros Hq. unfold likes_plus. destruct (decide (p_id q = postId)) as [E|E].
  - unfold likes_minus. simpl. rewrite decide_True by (split; [done | lia]).
    destruct q. simpl. f_equal. lia.
  - unfold likes_minus. rewrite decide_False; tauto.
Qed.

Lemma comments_minus_plus postId q :
  0 ≤ p_comments q → comments_minus postId (comments_plus postId q) = q.
Proof.
  intros Hq. unfold comments_plus. destruct (decide (p_id q = postId)) as [E|E].
  - unfold comments_minus. simpl. rewrite decide_True by (split; [done | lia]).
    destruct q. simpl. f_equal. lia.
  - unfold comments_minus. rewrite decide_False; tauto.
Qed.

Lemma reachable_counters_nonneg s q :
  reachable s → q ∈ posts s → 0 ≤ p_likes q ∧ 0 ≤ p_comments q.
Proof.
  intros Hs Hq. destruct (reachable_consistent s Hs) as (_ & _ & Cn).
  destruct (Cn q Hq) as [-> ->]. lia.
Qed.

(** X4.  In a reachable state, a first like of a post by a user followed
    by that user's unlike gives back the database as it was before the
    like, row for row. *)
Theorem like_unlike_round_trip (s : store) (postId : string) (body : dict)
    (u : string) (p : Post) :
  reachable s →
  find_post postId s = Some p →
  body !! "username" = Some (PStr u) → u ≠ "" →
  edges postId u s = [] →
  ∃ s1,
    like_post postId body s = (Ok (mkResponse 201), s1) ∧
    edges postId u s1 = [mkLike postId u] ∧
    unlike_post postId body s1 = (Ok (mkResponse 204), s).
Proof.
  intros Hs Hp Hu Tu He.
  rewrite (like_post_run postId body s u Hu Tu), Hp, He.
  eexists. split; [reflexivity|].
  assert (He' : edges postId u
            (mkStore (likes_plus postId <$> posts s) (comments s)
                     (likes s ++ [mkLike postId u])) = [mkLike postId u]).
  { unfold edges in *. simpl. rewrite filter_app, He, filter_cons, filter_nil.
    simpl. by rewrite decide_True. }
  split; [done|].
  rewrite (unlike_post_run _ _ _ u Hu Tu), He'.
  rewrite find_post_fmap by apply likes_plus_id. rewrite Hp. simpl.
  f_equal. destruct s as [ps cs ls]. simpl in *. f_equal.
  - rewrite <- list_fmap_compose. apply fmap_fixed. intros q Hq. simpl.
    apply likes_minus_plus.
    by apply (reachable_counters_nonneg _ q Hs).
  - rewrite filter_app, filter_cons, filter_nil. simpl.
    rewrite decide_False by tauto. rewrite app_nil_r.
    apply filter_all. intros l Hl Hkey.
    unfold edges in He. simpl in He.
    by eapply (filter_nil_not_elem_of _ _ l He).
Qed.

Lemma like_unlike_round_trip_witness :
  ∃ s1,
    like_post "p1" body_c s_commented = (Ok (mkResponse 201), s1) ∧
    edges "p1" "c" s1 = [mkLike "p1" "c"] ∧
    unlike_post "p1" body_c s1 = (Ok (mkResponse 204), s_commented).
Proof.
  apply (like_unlike_round_trip s_commented "p1" body_c "c" row_p1).
  - repeat apply reachable_serve. apply reachable_init.
  - vm_compute. reflexivity.
  - vm_compute. reflexivity.
  - discriminate.
  - vm_compute. reflexivity.
Defined.

(** X5.  In a reachable state, a comment created on a post under an id
    no comment has, then deleted under that post and id, gives back the
    database as it was before, row for row; in between, [get_comment]
    returns the dict [create_comment] returned. *)
Theorem comment_round_trip (s : store) (postId : string) (body : dict)
    (u c uuid4 now : string) (p : Post) :
  reachable s →
  find_post postId s = Some p →
  body !! "username" = Some (PStr u) → u ≠ "" →
  body !! "content" = Some (PStr c) → c ≠ "" →
  (∀ r, r ∈ comments s → c_id r ≠ uuid4) →
  ∃ d s1,
    create_comment postId body uuid4 now s = (Ok d, s1) ∧
    get_comment postId uuid4 s1 = (Ok d, s1) ∧
    delete_comment postId uuid4 s1 = (Ok (mkResponse 204), s).
Proof.
  intros Hs Hp Hu Tu Hc Tc Hfresh.
  rewrite (create_comment_run postId body uuid4 now s u c Hu Tu Hc Tc), Hp.
  assert (Hnone : filter (λ r, c_id r = uuid4) (comments s) = [])
    by by apply filter_empty.
  rewrite Hnone. eexists _, _. split; [reflexivity|].
  assert (Hsel : filter (λ r, c_id r = uuid4 ∧ c_postId r = postId)
            (comments s ++ [mkComment uuid4 postId u c now now]) =
          [mkComment uuid4 postId u c now now]).
  { rewrite filter_app, filter_cons, filter_nil. simpl.
    rewrite decide_True by done.
    replace (filter _ (comments s)) with (@nil Comment); [done|].
    symmetry. apply filter_empty. intros r Hr [Hid _]. by apply (Hfresh r). }
  split.
  - rewrite get_comment_run. unfold find_comment. simpl. by rewrite Hsel.
  - rewrite delete_comment_run. simpl. rewrite Hsel.
    f_equal. destruct s as [ps cs ls]. simpl in *. f_equal.
    + rewrite <- list_fmap_compose. apply fmap_fixed. intros q Hq. simpl.
      apply comments_minus_plus.
      by apply (reachable_counters_nonneg _ q Hs).
    + rewrite filter_app, filter_cons, filter_nil. simpl.
      rewrite decide_False by tauto. rewrite app_nil_r.
      apply filter_all. intros r Hr [Hid _]. by apply (Hfresh r).
Qed.

Lemma comment_round_trip_witness :
  ∃ d s1,
    create_comment "p1" body_a "c2" "t2" s_commented = (Ok d, s1) ∧
    get_comment "p1" "c2" s1 = (Ok d, s1) ∧
    delete_comment "p1" "c2" s1 = (Ok (mkResponse 204), s_commented).
Proof.
  apply (comment_round_trip s_commented "p1" body_a "a" "hi" "c2" "t2" row_p1).
  - repeat apply reachable_serve. apply reachable_init.
  - vm_compute. reflexivity.
  - vm_compute. reflexivity.
  - discriminate.
  - vm_compute. reflexivity.
  - discriminate.
  - intros r Hr. vm_compute in Hr.
    apply list_elem_of_singleton in Hr as ->. discriminate.
Defined.

(** ** Beyond the claims: the counters as the handlers report them *)

Lemma list_comments_run postId s :
  list_comments postId s =
    match find_post postId s with
    | None => (Raise NotFound, s)
    | Some _ => (Ok (comment_dict <$> comments_of postId s), s)
    end.
Proof.
  unfold list_comments, find_post, posts_at, comments_of. unfold_db. reduce.
  by destruct (filter _ (posts s)).
Qed.

Lemma find_post_elem postId s p : find_post postId s = Some p → p ∈ posts s.
Proof.
  intros Hp. apply find_post_posts_at in Hp as [rows Hp].
  assert (Hin : p ∈ posts_at postId s) by (rewrite Hp; left).
  unfold posts_at in Hin. by apply list_elem_of_filter in Hin as [_ ?].
Qed.

(** X6.  In a reachable state the [comments] that [get_post] reports is
    the number of dicts [list_comments] returns for that post, and every
    one of them carries that post's id as [postId]; on an id without a
    post [list_comments] raises [NotFound]. *)
Theorem list_comments_matches_counter (s : store) (postId : string) :
  reachable s →
  (∀ p, find_post postId s = Some p →
     ∃ l d,
       list_comments postId s = (Ok l, s) ∧
       get_post postId s = (Ok d, s) ∧
       d !! "comments" = Some (PInt (Z.of_nat (length l))) ∧
       ∀ x, x ∈ l → x !! "postId" = Some (PStr postId)) ∧
  (find_post postId s = None →
   list_comments postId s = (Raise NotFound, s)).
Proof.
  intros Hs. split.
  - intros p Hp. rewrite list_comments_run, get_post_run, Hp.
    eexists _, _. split; [reflexivity|]. split; [reflexivity|].
    destruct (reachable_consistent s Hs) as (_ & _ & Cn).
    destruct (Cn p (find_post_elem _ _ _ Hp)) as [_ Hc].
    rewrite (find_post_id _ _ _ Hp) in Hc. split.
    + rewrite length_fmap, <- Hc. reflexivity.
    + intros x Hx. apply list_elem_of_fmap in Hx as (r & -> & Hr).
      unfold comments_of in Hr. apply list_elem_of_filter in Hr as [<- _].
      reflexivity.
  - intros Hp. by rewrite list_comments_run, Hp.
Qed.

Lemma list_comments_matches_counter_witness :
  (∃ l d,
     list_comments "p1" s_commented = (Ok l, s_commented) ∧
     get_post "p1" s_commented = (Ok d, s_commented) ∧
     d !! "comments" = Some (PInt (Z.of_nat (length l))) ∧
     ∀ x, x ∈ l → x !! "postId" = Some (PStr "p1")) ∧
  list_comments "p2" s_commented = (Raise NotFound, s_commented).
Proof.
  assert (Hs : reachable s_commented)
    by (repeat apply reachable_serve; apply reachable_init).
  split.
  - apply (proj1 (list_comments_matches_counter s_commented "p1" Hs) row_p1).
    vm_compute. reflexivity.
  - apply (proj2 (list_comments_matches_counter s_commented "p2" Hs)).
    vm_compute. reflexivity.
Defined.

(** X7.  In a reachable state [unlike_post] of a pair that has its
    Like-edge returns 204, removes that edge and no other row of
    [likes], and lowers the post's [likes] by exactly 1 (the guard
    [likes > 0] of the update holds); posts under another id and the
    comments are unchanged, and a second [unlike_post] changes
    nothing. *)
Theorem unlike_present_edge (s : store) (postId : string) (body : dict)
    (u : string) (p : Post) :
  reachable s →
  find_post postId s = Some p →
  body !! "username" = Some (PStr u) → u ≠ "" →
  edges postId u s ≠ [] →
  ∃ s' p',
    unlike_post postId body s = (Ok (mkResponse 204), s') ∧
    edges postId u s' = [] ∧
    (∀ l, l ∈ likes s' ↔ l ∈ likes s ∧ l ≠ mkLike postId u) ∧
    (length (likes s') + 1 = length (likes s))%nat ∧
    find_post postId s' = Some p' ∧
    p_likes p' = p_likes p - 1 ∧
    p_comments p' = p_comments p ∧
    (∀ (i : nat) q, posts s !! i = Some q → p_id q ≠ postId →
       posts s' !! i = Some q) ∧
    comments s' = comments s ∧
    unlike_post postId body s' = (Ok (mkResponse 204), s').
Proof.
  intros Hs Hp Hu Tu He.
  pose proof (find_post_id _ _ _ Hp) as Hid.
  destruct (reachable_consistent s Hs) as ((_ & _ & Kl) & _ & Cn).
  destruct (Cn p (find_post_elem _ _ _ Hp)) as [Hl _].
  rewrite Hid in Hl. unfold likes_of in Hl.
  assert (Hin : mkLike postId u ∈ likes s).
  { unfold edges in He. apply filter_inhabited in He as ([lp lu] & Hin & Hk).
    simpl in Hk. destruct Hk as [-> ->]. done. }
  assert (Hone :
    length (filter (λ l, l_postId l = postId) (likes s)) =
    S (length (filter (λ l, l_postId l = postId)
         (filter (λ l, ¬ (l_postId l = postId ∧ l_username l = u)) (likes s))))).
  { apply (filter_delete_one _ _ _ (mkLike postId u)); try done.
    intros [yp yu] Hy [Hyp Hyu]. simpl in *. congruence. }
  assert (Hpos : p_likes p > 0) by lia.
  rewrite (unlike_post_run postId body s u Hu Tu), Hp.
  destruct (edges postId u s) as [|e es] eqn:Hes; [done|].
  assert (Hgone : edges postId u
    (mkStore (likes_minus postId <$> posts s) (comments s)
       (filter (λ l, ¬ (l_postId l = postId ∧ l_username l = u)) (likes s)))
    = []).
  { unfold edges. simpl. apply filter_empty. intros l Hl' Hk.
    by apply list_elem_of_filter in Hl' as [? _]. }
  exists (mkStore (likes_minus postId <$> posts s) (comments s)
            (filter (λ l, ¬ (l_postId l = postId ∧ l_username l = u)) (likes s))),
         (likes_minus postId p).
  split; [done|]. split; [done|]. split; [|split; [|split; [|split]]].
  - intros [lp lu]. simpl. rewrite list_elem_of_filter. simpl.
    split.
    + intros [H1 H2]. split; [done|]. intros [= -> ->]. by apply H1.
    + intros [H1 H2]. split; [|done]. intros [-> ->]. by apply H2.
  - simpl.
    assert (Hlen :
      length (filter (λ _ : Like, True) (likes s)) =
      S (length (filter (λ _ : Like, True)
           (filter (λ l, ¬ (l_postId l = postId ∧ l_username l = u))
                   (likes s))))).
    { apply (filter_delete_one _ _ _ (mkLike postId u)); try done.
      intros [yp yu] Hy [Hyp Hyu]. simpl in *. congruence. }
    rewrite !filter_all in Hlen by done. lia.
  - rewrite find_post_fmap by apply likes_minus_id. by rewrite Hp.
  - unfold likes_minus. rewrite decide_True by (split; assumption).
    reflexivity.
  - split.
    { unfold likes_minus. rewrite decide_True by (split; assumption).
      reflexivity. }
    split; [|split; [reflexivity|]].
    + intros i q Hq Hne. simpl. rewrite list_lookup_fmap, Hq. simpl.
      unfold likes_minus. rewrite decide_False; tauto.
    + rewrite (unlike_post_run _ _ _ u Hu Tu), Hgone.
      rewrite find_post_fmap by apply likes_minus_id. by rewrite Hp.
Qed.

Lemma unlike_present_edge_witness :
  ∃ s' p',
    unlike_post "p1" body_b s_commented = (Ok (mkResponse 204), s') ∧
    edges "p1" "b" s' = [] ∧
    (∀ l, l ∈ likes s' ↔ l ∈ likes s_commented ∧ l ≠ mkLike "p1" "b") ∧
    (length (likes s') + 1 = length (likes s_commented))%nat ∧
    find_post "p1" s' = Some p' ∧
    p_likes p' = p_likes row_p1 - 1 ∧
    p_comments p' = p_comments row_p1 ∧
    (∀ (i : nat) q, posts s_commented !! i = Some q → p_id q ≠ "p1" →
       posts s' !! i = Some q) ∧
    comments s' = comments s_commented ∧
    unlike_post "p1" body_b s' = (Ok (mkResponse 204), s').
Proof.
  apply (unlike_present_edge s_commented "p1" body_b "b" row_p1).
  - repeat apply reachable_serve. apply reachable_init.
  - vm_compute. reflexivity.
  - vm_compute. reflexivity.
  - discriminate.
  - vm_compute. discriminate.
Defined.

(** ** Beyond the claims: comments *)

Lemma find_comment_elem postId commentId s x :
  find_comment postId commentId s = Some x →
  x ∈ comments s ∧ c_id x = commentId ∧ c_postId x = postId.
Proof.
  unfold find_comment, fetchone.
  destruct (filter _ (comments s)) as [|r rows] eqn:Hf; [done|].
  intros [= ->].
  assert (Hin : x ∈ x :: rows) by left. rewrite <- Hf in Hin.
  apply list_elem_of_filter in Hin as [[? ?] ?]. done.
Qed.

Lemma find_post_some postId s :
  (∃ p, p ∈ posts s ∧ p_id p = postId) → ∃ p, find_post postId s = Some p.
Proof.
  intros Hex. unfold find_post, posts_at, fetchone.
  destruct (filter _ (posts s)) as [|p rows] eqn:Hf; [|by exists p].
  exfalso. revert Hf. by apply filter_inhabited.
Qed.

Lemma update_comment_run postId commentId body now s u c :
  body !! "username" = Some (PStr u) → u ≠ "" →
  body !! "content" = Some (PStr c) → c ≠ "" →
  update_comment postId commentId body now s =
    match find_comment postId commentId s with
    | None => (Raise NotFound, s)
    | Some x =>
        (Ok (comment_dict (set_comment u c now commentId postId x)),
         mkStore (posts s)
                 (set_comment u c now commentId postId <$> comments s)
                 (likes s))
    end.
Proof.
  intros Hu Tu Hc Tc. unfold update_comment, find_comment.
  rewrite (get_str _ _ _ Hu Tu), (get_str _ _ _ Hc Tc). cbn [negb orb].
  unfold_db. rewrite Hu, Hc. reduce.
  destruct (filter _ (comments s)) as [|x rows] eqn:Hf; [done|].
  reduce. cbn [sql_text]. reduce.
  rewrite head_filter_set_comment, Hf. done.
Qed.

(** X8.  In a reachable state [delete_comment] of an existing comment
    returns 204, removes that one row of [comments] and no other, and
    lowers the [comments] of its post by exactly 1 (the guard
    [comments > 0] of the update holds); the post's [likes] and the
    Like-edges are unchanged. *)
Theorem delete_comment_counts (s : store) (postId commentId : string)
    (x : Comment) :
  reachable s →
  find_comment postId commentId s = Some x →
  ∃ p s' p',
    find_post postId s = Some p ∧
    delete_comment postId commentId s = (Ok (mkResponse 204), s') ∧
    (∀ r, r ∈ comments s' ↔ r ∈ comments s ∧ r ≠ x) ∧
    (length (comments s') + 1 = length (comments s))%nat ∧
    find_post postId s' = Some p' ∧
    p_comments p' = p_comments p - 1 ∧
    0 ≤ p_comments p' ∧
    p_likes p' = p_likes p ∧
    likes s' = likes s.
Proof.
  intros Hs Hx.
  destruct (reachable_consistent s Hs) as ((_ & Kc & _) & (Rc & _) & Cn).
  pose proof (find_comment_elem _ _ _ _ Hx) as (Hin & Hxid & Hxpost).
  destruct (find_post_some postId s) as [p Hp].
  { rewrite <- Hxpost. by apply Rc. }
  pose proof (find_post_id _ _ _ Hp) as Hid.
  destruct (Cn p (find_post_elem _ _ _ Hp)) as [_ Hc].
  rewrite Hid in Hc. unfold comments_of in Hc.
  assert (Huniq : ∀ y, y ∈ comments s →
            c_id y = commentId ∧ c_postId y = postId → y = x).
  { intros y Hy [Hyid _]. eapply NoDup_key; [exact Kc|done..|congruence]. }
  assert (Hone :
    length (filter (λ r, c_postId r = postId) (comments s)) =
    S (length (filter (λ r, c_postId r = postId)
         (filter (λ r, ¬ (c_id r = commentId ∧ c_postId r = postId))
                 (comments s))))).
  { apply (filter_delete_one _ _ _ x); try done. by eapply NoDup_fmap_1. }
  assert (Hlen :
    length (filter (λ _ : Comment, True) (comments s)) =
    S (length (filter (λ _ : Comment, True)
         (filter (λ r, ¬ (c_id r = commentId ∧ c_postId r = postId))
                 (comments s))))).
  { apply (filter_delete_one _ _ _ x); try done. by eapply NoDup_fmap_1. }
  rewrite !filter_all in Hlen by done.
  assert (Hpos : p_comments p > 0) by lia.
  exists p,
    (mkStore (comments_minus postId <$> posts s)
       (filter (λ r, ¬ (c_id r = commentId ∧ c_postId r = postId)) (comments s))
       (likes s)),
    (comments_minus postId p).
  split; [done|]. split.
  { rewrite delete_comment_run. unfold find_comment, fetchone in Hx.
    by destruct (filter _ (comments s)). }
  split; [|split; [simpl; lia|split]].
  - intros r. simpl. rewrite list_elem_of_filter. split.
    + intros [Hk Hr]. split; [done|]. intros ->. by apply Hk.
    + intros [Hr Hne]. split; [|done]. intros Hk. by apply Hne, Huniq.
  - rewrite find_post_fmap by apply comments_minus_id. by rewrite Hp.
  - unfold comments_minus. rewrite decide_True by (split; assumption).
    simpl. repeat split; lia.
Qed.

Lemma delete_comment_counts_witness :
  ∃ p s' p',
    find_post "p1" s_commented = Some p ∧
    delete_comment "p1" "c1" s_commented = (Ok (mkResponse 204), s') ∧
    (∀ r, r ∈ comments s' ↔ r ∈ comments s_commented ∧ r ≠ row_c1) ∧
    (length (comments s') + 1 = length (comments s_commented))%nat ∧
    find_post "p1" s' = Some p' ∧
    p_comments p' = p_comments p - 1 ∧
    0 ≤ p_comments p' ∧
    p_likes p' = p_likes p ∧
    likes s' = likes s_commented.
Proof.
  apply (delete_comment_counts s_commented "p1" "c1" row_c1).
  - repeat apply reachable_serve. apply reachable_init.
  - vm_compute. reflexivity.
Defined.

(** X9.  [update_comment] of an existing comment with non-empty strings
    returns the updated row: it has the new [username] and [content]
    and [updatedAt = now], and its [id], [postId] and [createdAt] are
    the old ones; the other comments, every post (its counters
    included) and the likes are unchanged.  On keys that match no
    comment it raises [NotFound] and changes nothing. *)
Theorem update_comment_frame (s : store) (postId commentId : string)
    (body : dict) (u c now : string) :
  body !! "username" = Some (PStr u) → u ≠ "" →
  body !! "content" = Some (PStr c) → c ≠ "" →
  (∀ x, find_comment postId commentId s = Some x →
     ∃ x' s',
       update_comment postId commentId body now s =
         (Ok (comment_dict x'), s') ∧
       find_comment postId commentId s' = Some x' ∧
       c_username x' = u ∧ c_content x' = c ∧ c_updatedAt x' = now ∧
       c_id x' = c_id x ∧ c_postId x' = c_postId x ∧
       c_createdAt x' = c_createdAt x ∧
       length (comments s') = length (comments s) ∧
       (∀ (i : nat) r, comments s !! i = Some r →
          ¬ (c_id r = commentId ∧ c_postId r = postId) →
          comments s' !! i = Some r) ∧
       posts s' = posts s ∧
       likes s' = likes s) ∧
  (find_comment postId commentId s = None →
   update_comment postId commentId body now s = (Raise NotFound, s)).
Proof.
  intros Hu Tu Hc Tc.
  rewrite (update_comment_run postId commentId body now s u c Hu Tu Hc Tc).
  split; [|by intros ->].
  intros x Hx. rewrite Hx.
  pose proof (find_comment_elem _ _ _ _ Hx) as (_ & Hxid & Hxpost).
  assert (Hrow : set_comment u c now commentId postId x =
            mkComment (c_id x) (c_postId x) u c (c_createdAt x) now).
  { unfold set_comment. by rewrite decide_True. }
  exists (mkComment (c_id x) (c_postId x) u c (c_createdAt x) now),
         (mkStore (posts s)
                  (set_comment u c now commentId postId <$> comments s)
                  (likes s)).
  split; [by rewrite Hrow|]. split.
  { unfold find_comment, fetchone in *. simpl.
    rewrite head_filter_set_comment, Hx. simpl. by rewrite Hrow. }
  cbn [c_id c_postId c_username c_content c_createdAt c_updatedAt
       posts comments likes].
  repeat split.
  - apply length_fmap.
  - intros i r Hr Hne. rewrite list_lookup_fmap, Hr. simpl.
    unfold set_comment. by rewrite decide_False.
Qed.

Lemma update_comment_frame_witness :
  (∃ x' s',
     update_comment "p1" "c1" body_a "t9" s_commented =
       (Ok (comment_dict x'), s') ∧
     find_comment "p1" "c1" s' = Some x' ∧
     c_username x' = "a" ∧ c_content x' = "hi" ∧ c_updatedAt x' = "t9" ∧
     c_id x' = c_id row_c1 ∧ c_postId x' = c_postId row_c1 ∧
     c_createdAt x' = c_createdAt row_c1 ∧
     length (comments s') = length (comments s_commented) ∧
     (∀ (i : nat) r, comments s_commented !! i = Some r →
        ¬ (c_id r = "c1" ∧ c_postId r = "p1") →
        comments s' !! i = Some r) ∧
     posts s' = posts s_commented ∧
     likes s' = likes s_commented) ∧
  update_comment "p1" "c2" body_a "t9" s_commented =
    (Raise NotFound, s_commented).
Proof.
  assert (Ha : "a" ≠ "") by discriminate.
  assert (Hh : "hi" ≠ "") by discriminate.
  split.
  - apply (proj1 (update_comment_frame s_commented "p1" "c1" body_a "a" "hi"
                    "t9" eq_refl Ha eq_refl Hh) row_c1).
    vm_compute. reflexivity.
  - apply (proj2 (update_comment_frame s_commented "p1" "c2" body_a "a" "hi"
                    "t9" eq_refl Ha eq_refl Hh)).
    vm_compute. reflexivity.
Defined.

(** X10.  In a reachable state a comment answers only under its own
    post: [get_comment], [update_comment] and [delete_comment] with the
    comment's id but another [postId] raise [NotFound] and change
    nothing. *)
Theorem comment_under_its_post_only (s : store) (x : Comment)
    (postId : string) (body : dict) (u c now : string) :
  reachable s →
  x ∈ comments s →
  postId ≠ c_postId x →
  body !! "username" = Some (PStr u) → u ≠ "" →
  body !! "content" = Some (PStr c) → c ≠ "" →
  get_comment postId (c_id x) s = (Raise NotFound, s) ∧
  update_comment postId (c_id x) body now s = (Raise NotFound, s) ∧
  delete_comment postId (c_id x) s = (Raise NotFound, s).
Proof.
  intros Hs Hx Hne Hu Tu Hc Tc.
  destruct (reachable_consistent s Hs) as ((_ & Kc & _) & _ & _).
  assert (Hnone : find_comment postId (c_id x) s = None).
  { destruct (find_comment postId (c_id x) s) as [y|] eqn:Hy; [|done].
    apply find_comment_elem in Hy as (Hyin & Hyid & Hypost).
    assert (y = x) as -> by (eapply NoDup_key; [exact Kc|done..]).
    congruence. }
  rewrite get_comment_run, Hnone.
  rewrite (update_comment_run _ _ _ _ _ u c Hu Tu Hc Tc), Hnone.
  rewrite delete_comment_run.
  unfold find_comment, fetchone in Hnone.
  by destruct (filter _ (comments s)).
Qed.

Lemma comment_under_its_post_only_witness :
  get_comment "p2" "c1" s_commented = (Raise NotFound, s_commented) ∧
  update_comment "p2" "c1" body_a "t9" s_commented =
    (Raise NotFound, s_commented) ∧
  delete_comment "p2" "c1" s_commented = (Raise NotFound, s_commented).
Proof.
  apply (comment_under_its_post_only s_commented row_c1 "p2" body_a "a" "hi").
  - repeat apply reachable_serve. apply reachable_init.
  - vm_compute. apply list_elem_of_here.
  - discriminate.
  - vm_compute. reflexivity.
  - discriminate.
  - vm_compute. reflexivity.
  - discriminate.
Defined.

(** ** Beyond the claims: what a request can change of a row *)

Lemma head_filter_fmap {A} (P : A → Prop) `{∀ x, Decision (P x)}
    (g : A → A) (l : list A) :
  (∀ x, P (g x) ↔ P x) →
  head (filter P (g <$> l)) = g <$> head (filter P l).
Proof.
  intros Hg. induction l as [|a l IH]; [done|].
  rewrite fmap_cons, !filter_cons.
  destruct (decide (P (g a))) as [H1|H1], (decide (P a)) as [H2|H2];
    try done; exfalso; [apply H2, Hg, H1 | apply H1, Hg, H2].
Qed.

Lemma head_filter_snoc {A} (P : A → Prop) `{∀ x, Decision (P x)}
    (l : list A) (a x : A) :
  head (filter P l) = Some x → head (filter P (l ++ [a])) = Some x.
Proof.
  rewrite filter_app. by destruct (filter P l).
Qed.

Lemma find_post_snoc postId s new cs ls p :
  find_post postId s = Some p →
  find_post postId (mkStore (posts s ++ [new]) cs ls) = Some p.
Proof. apply head_filter_snoc. Qed.

Lemma find_post_delete postId other s cs ls p' :
  find_post postId
    (mkStore (filter (λ q, p_id q ≠ other) (posts s)) cs ls) = Some p' →
  find_post postId s = Some p'.
Proof.
  unfold find_post, posts_at, fetchone. simpl. intros Hp'.
  destruct (decide (postId = other)) as [->|Hne].
  - exfalso.
    destruct (filter _ (filter _ _)) as [|q rows] eqn:Hf; [done|].
    assert (Hin : q ∈ q :: rows) by left. rewrite <- Hf in Hin.
    apply list_elem_of_filter in Hin as [Hq Hin].
    by apply list_elem_of_filter in Hin as [? _].
  - rewrite filter_filter_keep in Hp'; [done|]. intros; congruence.
Qed.

(** The updates of a row, on a row under another id. *)
Lemma set_post_other u c now other p :
  p_id p ≠ other → set_post u c now other p = p.
Proof. intros. unfold set_post. by rewrite decide_False. Qed.

Lemma comments_plus_other other p :
  p_id p ≠ other → comments_plus other p = p.
Proof. intros. unfold comments_plus. by rewrite decide_False. Qed.

Lemma likes_plus_other other p : p_id p ≠ other → likes_plus other p = p.
Proof. intros. unfold likes_plus. by rewrite decide_False. Qed.

Lemma likes_minus_other other p : p_id p ≠ other → likes_minus other p = p.
Proof. intros. unfold likes_minus. rewrite decide_False; tauto. Qed.

(** X11.  Whatever the request and the database, a post that is there
    before and after it keeps its [id] and its [createdAt]; each counter
    moves by at most 1; [likes] moves only under [like_post] or
    [unlike_post] of that post, [comments] only under [create_comment]
    or [delete_comment] of that post, and [username], [content] and
    [updatedAt] only under [update_post] of that post. *)
Theorem post_across_a_request (r : request) (s : store) (postId : string)
    (p p' : Post) :
  find_post postId s = Some p →
  find_post postId (serve r s) = Some p' →
  p_id p' = p_id p ∧
  p_createdAt p' = p_createdAt p ∧
  p_likes p - 1 ≤ p_likes p' ≤ p_likes p + 1 ∧
  p_comments p - 1 ≤ p_comments p' ≤ p_comments p + 1 ∧
  (p_likes p' ≠ p_likes p →
   ∃ body, r = LikePost postId body ∨ r = UnlikePost postId body) ∧
  (p_comments p' ≠ p_comments p →
   (∃ body uuid4 now, r = CreateComment postId body uuid4 now) ∨
   (∃ commentId, r = DeleteComment postId commentId)) ∧
  (p_username p' ≠ p_username p ∨ p_content p' ≠ p_content p ∨
   p_updatedAt p' ≠ p_updatedAt p →
   ∃ body now, r = UpdatePost postId body now).
Proof.
  intros Hp Hp'. pose proof (find_post_id _ _ _ Hp) as Hid.
  assert (Hsame : p' = p →
    p_id p' = p_id p ∧ p_createdAt p' = p_createdAt p ∧
    p_likes p - 1 ≤ p_likes p' ≤ p_likes p + 1 ∧
    p_comments p - 1 ≤ p_comments p' ≤ p_comments p + 1 ∧
    (p_likes p' ≠ p_likes p →
     ∃ body, r = LikePost postId body ∨ r = UnlikePost postId body) ∧
    (p_comments p' ≠ p_comments p →
     (∃ body uuid4 now, r = CreateComment postId body uuid4 now) ∨
     (∃ commentId, r = DeleteComment postId commentId)) ∧
    (p_username p' ≠ p_username p ∨ p_content p' ≠ p_content p ∨
     p_updatedAt p' ≠ p_updatedAt p →
     ∃ body now, r = UpdatePost postId body now)).
  { intros ->. repeat split; try lia; try done. by intros [?|[?|?]]. }
  assert (Hunchanged : serve r s = s → p' = p) by (intros E; congruence).
  destruct r as [|body uuid4 now|other|other body now|other
    |other|other body uuid4 now|other commentId|other commentId body now
    |other commentId|other body|other body]; simpl in Hp', Hunchanged.
  - by apply Hsame, Hunchanged.
  - apply Hsame.
    destruct (create_post_store body uuid4 now s) as [E|(u & c & _ & E)];
      [by apply Hunchanged|].
    rewrite E in Hp'. rewrite (find_post_snoc _ _ _ _ _ _ Hp) in Hp'.
    congruence.
  - apply Hsame, Hunchanged, get_post_store.
  - destruct (update_post_store other body now s) as [E|(u & c & E)];
      [by apply Hsame, Hunchanged|].
    rewrite E, find_post_fmap, Hp in Hp' by apply set_post_id.
    injection Hp' as <-.
    destruct (decide (postId = other)) as [<-|Hne].
    + unfold set_post. rewrite decide_True by done. simpl.
      repeat split; try lia; try done. intros _. by eexists _, _.
    + apply Hsame, set_post_other. congruence.
  - apply Hsame. rewrite delete_post_run in Hp'.
    destruct (posts_at other s); simpl in Hp'; [congruence|].
    apply find_post_delete in Hp'. congruence.
  - apply Hsame, Hunchanged, list_comments_store.
  - destruct (create_comment_store other body uuid4 now s)
      as [E|(u & c & _ & _ & E)]; [by apply Hsame, Hunchanged|].
    rewrite E, find_post_fmap, Hp in Hp' by apply comments_plus_id.
    injection Hp' as <-.
    destruct (decide (postId = other)) as [<-|Hne].
    + unfold comments_plus. rewrite decide_True by done. simpl.
      repeat split; try lia; try done.
      * intros _. left. by eexists _, _, _.
      * by intros [?|[?|?]].
    + apply Hsame, comments_plus_other. congruence.
  - apply Hsame, Hunchanged, get_comment_store.
  - apply Hsame.
    destruct (update_comment_store other commentId body now s)
      as [E|(u & c & E)]; [by apply Hunchanged|].
    rewrite E in Hp'. unfold find_post, posts_at in *. simpl in Hp'. congruence.
  - rewrite delete_comment_run in Hp'.
    destruct (filter _ (comments s)); simpl in Hp'; [apply Hsame; congruence|].
    rewrite find_post_fmap, Hp in Hp' by apply comments_minus_id.
    injection Hp' as <-.
    destruct (decide (postId = other)) as [<-|Hne].
    + unfold comments_minus. case_decide; simpl.
      * repeat split; try lia; try done.
        -- intros _. right. by eexists.
        -- by intros [?|[?|?]].
      * repeat split; try lia; try done. by intros [?|[?|?]].
    + apply Hsame, comments_minus_other. congruence.
  - destruct (like_post_store other body s) as [E|(u & _ & _ & E)];
      [by apply Hsame, Hunchanged|].
    rewrite E, find_post_fmap, Hp in Hp' by apply likes_plus_id.
    injection Hp' as <-.
    destruct (decide (postId = other)) as [<-|Hne].
    + unfold likes_plus. rewrite decide_True by done. simpl.
      repeat split; try lia; try done.
      * intros _. eexists. by left.
      * by intros [?|[?|?]].
    + apply Hsame, likes_plus_other. congruence.
  - destruct (unlike_post_store other body s) as [E|(u & _ & E)];
      [by apply Hsame, Hunchanged|].
    rewrite E, find_post_fmap, Hp in Hp' by apply likes_minus_id.
    injection Hp' as <-.
    destruct (decide (postId = other)) as [<-|Hne].
    + unfold likes_minus. case_decide; simpl.
      * repeat split; try lia; try done.
        -- intros _. eexists. by right.
        -- by intros [?|[?|?]].
      * repeat split; try lia; try done. by intros [?|[?|?]].
    + apply Hsame, likes_minus_other. congruence.
Qed.

Lemma post_across_a_request_witness :
  p_id row_p1 = p_id (mkPost "p1" "a" "hi" "t0" "t0" 1 0) ∧
  p_createdAt row_p1 = p_createdAt (mkPost "p1" "a" "hi" "t0" "t0" 1 0) ∧
  1 - 1 ≤ p_likes row_p1 ≤ 1 + 1 ∧
  0 - 1 ≤ p_comments row_p1 ≤ 0 + 1 ∧
  (p_likes row_p1 ≠ 1 →
   ∃ body, CreateComment "p1" body_c "c1" "t1" = LikePost "p1" body ∨
           CreateComment "p1" body_c "c1" "t1" = UnlikePost "p1" body) ∧
  (p_comments row_p1 ≠ 0 →
   (∃ body uuid4 now,
      CreateComment "p1" body_c "c1" "t1" = CreateComment "p1" body uuid4 now) ∨
   (∃ commentId,
      CreateComment "p1" body_c "c1" "t1" = DeleteComment "p1" commentId)) ∧
  (p_username row_p1 ≠ "a" ∨ p_content row_p1 ≠ "hi" ∨
   p_updatedAt row_p1 ≠ "t0" →
   ∃ body now, CreateComment "p1" body_c "c1" "t1" = UpdatePost "p1" body now).
Proof.
  apply (post_across_a_request (CreateComment "p1" body_c "c1" "t1") s_liked
           "p1" (mkPost "p1" "a" "hi" "t0" "t0" 1 0) row_p1).
  - vm_compute. reflexivity.
  - vm_compute. reflexivity.
Defined.

Lemma set_comment_other u c now commentId postId x :
  ¬ (c_id x = commentId ∧ c_postId x = postId) →
  set_comment u c now commentId postId x = x.
Proof. intros. unfold set_comment. by rewrite decide_False. Qed.

(** X12.  Whatever the request and the database, a comment that is
    there before and after it keeps its [id], its [postId] and its
    [createdAt], and its [username], [content] and [updatedAt] move only
    under [update_comment] of that comment. *)
Theorem comment_across_a_request (r : request) (s : store)
    (postId commentId : string) (x x' : Comment) :
  find_comment postId commentId s = Some x →
  find_comment postId commentId (serve r s) = Some x' →
  c_id x' = c_id x ∧
  c_postId x' = c_postId x ∧
  c_createdAt x' = c_createdAt x ∧
  (c_username x' ≠ c_username x ∨ c_content x' ≠ c_content x ∨
   c_updatedAt x' ≠ c_updatedAt x →
   ∃ body now, r = UpdateComment postId commentId body now).
Proof.
  intros Hx Hx'.
  pose proof (find_comment_elem _ _ _ _ Hx) as (_ & Hxid & Hxpost).
  assert (Hsame : x' = x →
    c_id x' = c_id x ∧ c_postId x' = c_postId x ∧
    c_createdAt x' = c_createdAt x ∧
    (c_username x' ≠ c_username x ∨ c_content x' ≠ c_content x ∨
     c_updatedAt x' ≠ c_updatedAt x →
     ∃ body now, r = UpdateComment postId commentId body now)).
  { intros ->. repeat split. by intros [?|[?|?]]. }
  assert (Hcomments : comments (serve r s) = comments s → x' = x).
  { intros E. unfold find_comment in *. rewrite E in Hx'. congruence. }
  destruct r as [|body uuid4 now|other|other body now|other
    |other|other body uuid4 now|other otherId|other otherId body now
    |other otherId|other body|other body]; simpl in Hx', Hcomments.
  - by apply Hsame, Hcomments.
  - apply Hsame, Hcomments.
    by destruct (create_post_store body uuid4 now s) as [->|(u & c & _ & ->)].
  - apply Hsame, Hcomments. by rewrite get_post_store.
  - apply Hsame, Hcomments.
    by destruct (update_post_store other body now s) as [->|(u & c & ->)].
  - apply Hsame. rewrite delete_post_run in Hx'.
    destruct (posts_at other s); simpl in Hx'; [congruence|].
    unfold find_comment, fetchone in *. simpl in Hx'.
    destruct (decide (postId = other)) as [<-|Hne].
    + exfalso.
      destruct (filter _ (filter _ _)) as [|q rows] eqn:Hf; [done|].
      assert (Hin : q ∈ q :: rows) by left. rewrite <- Hf in Hin.
      apply list_elem_of_filter in Hin as [[_ Hq] Hin].
      by apply list_elem_of_filter in Hin as [? _].
    + rewrite filter_filter_keep in Hx'; [congruence|].
      intros y _ [_ Hy]. congruence.
  - apply Hsame, Hcomments. by rewrite list_comments_store.
  - apply Hsame.
    destruct (create_comment_store other body uuid4 now s)
      as [E|(u & c & _ & _ & E)]; [by apply Hcomments; rewrite E|].
    rewrite E in Hx'. unfold find_comment, fetchone in *. simpl in Hx'.
    rewrite (head_filter_snoc _ _ _ _ Hx) in Hx'. congruence.
  - apply Hsame, Hcomments. by rewrite get_comment_store.
  - destruct (update_comment_store other otherId body now s)
      as [E|(u & c & E)]; [by apply Hsame, Hcomments; rewrite E|].
    rewrite E in Hx'. unfold find_comment, fetchone in *. simpl in Hx'.
    rewrite head_filter_fmap, Hx in Hx'
      by (intros y; by rewrite set_comment_id, set_comment_postId).
    injection Hx' as <-.
    destruct (decide (commentId = otherId ∧ postId = other)) as [[<- <-]|Hne].
    + unfold set_comment. rewrite decide_True by done. simpl.
      repeat split. intros _. by eexists _, _.
    + apply Hsame, set_comment_other. rewrite Hxid, Hxpost. done.
  - apply Hsame. rewrite delete_comment_run in Hx'.
    destruct (filter _ (comments s)) as [|row rows] eqn:Hdel; simpl in Hx';
      [congruence|].
    unfold find_comment, fetchone in *. simpl in Hx'.
    destruct (decide (commentId = otherId ∧ postId = other)) as [[<- <-]|Hne].
    + exfalso.
      destruct (filter _ (filter _ _)) as [|q qs] eqn:Hf; [done|].
      assert (Hin : q ∈ q :: qs) by left. rewrite <- Hf in Hin.
      apply list_elem_of_filter in Hin as [Hq Hin].
      by apply list_elem_of_filter in Hin as [? _].
    + rewrite filter_filter_keep in Hx'; [congruence|].
      intros y _ [<- <-] [<- <-]. by apply Hne.
  - apply Hsame, Hcomments.
    by destruct (like_post_store other body s) as [->|(u & _ & _ & ->)].
  - apply Hsame, Hcomments.
    by destruct (unlike_post_store other body s) as [->|(u & _ & ->)].
Qed.

Lemma comment_across_a_request_witness :
  c_id (mkComment "c1" "p1" "a" "hi" "t1" "t9") = c_id row_c1 ∧
  c_postId (mkComment "c1" "p1" "a" "hi" "t1" "t9") = c_postId row_c1 ∧
  c_createdAt (mkComment "c1" "p1" "a" "hi" "t1" "t9") = c_createdAt row_c1 ∧
  (c_username (mkComment "c1" "p1" "a" "hi" "t1" "t9") ≠ c_username row_c1 ∨
   c_content (mkComment "c1" "p1" "a" "hi" "t1" "t9") ≠ c_content row_c1 ∨
   c_updatedAt (mkComment "c1" "p1" "a" "hi" "t1" "t9") ≠ c_updatedAt row_c1 →
   ∃ body now,
     UpdateComment "p1" "c1" body_a "t9" = UpdateComment "p1" "c1" body now).
Proof.
  apply (comment_across_a_request (UpdateComment "p1" "c1" body_a "t9")
           s_commented "p1" "c1" row_c1
           (mkComment "c1" "p1" "a" "hi" "t1" "t9")).
  - vm_compute. reflexivity.
  - vm_compute. reflexivity.
Defined.



(** X14.  On an id without a post, [get_post], [update_post],
    [like_post] and [unlike_post] (the last three with non-empty string
    fields) raise [NotFound] and write nothing. *)
Theorem absent_post_not_found (s : store) (postId : string)
    (body : dict) (u c now : string) :
  find_post postId s = None →
  body !! "username" = Some (PStr u) → u ≠ "" →
  body !! "content" = Some (PStr c) → c ≠ "" →
  get_post postId s = (Raise NotFound, s) ∧
  update_post postId body now s = (Raise NotFound, s) ∧
  like_post postId body s = (Raise NotFound, s) ∧
  unlike_post postId body s = (Raise NotFound, s).
Proof.
  intros Hp Hu Tu Hc Tc.
  rewrite get_post_run, (update_post_run _ _ _ _ u c Hu Tu Hc Tc),
    (like_post_run _ _ _ u Hu Tu), (unlike_post_run _ _ _ u Hu Tu), Hp.
  done.
Qed.

Lemma absent_post_not_found_witness :
  get_post "p2" s_commented = (Raise NotFound, s_commented) ∧
  update_post "p2" body_a "t9" s_commented = (Raise NotFound, s_commented) ∧
  like_post "p2" body_a s_commented = (Raise NotFound, s_commented) ∧
  unlike_post "p2" body_a s_commented = (Raise NotFound, s_commented).
Proof.
  apply (absent_post_not_found s_commented "p2" body_a "a" "hi" "t9").
  - vm_compute. reflexivity.
  - vm_compute. reflexivity.
  - discriminate.
  - vm_compute. reflexivity.
  - discriminate.
Defined.

Lemma set_post_set_post u1 c1 t1 u2 c2 t2 postId q :
  set_post u2 c2 t2 postId (set_post u1 c1 t1 postId q) =
  set_post u2 c2 t2 postId q.
Proof.
  unfold set_post. destruct (decide (p_id q = postId)) as [E|E]; simpl.
  - by rewrite decide_True.
  - by rewrite decide_False.
Qed.

(** X15.  Two [update_post] calls on an existing post, one after the
    other with non-empty strings, leave the database, and return the
    dict, that the second call alone would. *)
Theorem update_post_last_wins (s : store) (postId : string)
    (body1 body2 : dict) (u1 c1 t1 u2 c2 t2 : string) (p : Post) :
  find_post postId s = Some p →
  body1 !! "username" = Some (PStr u1) → u1 ≠ "" →
  body1 !! "content" = Some (PStr c1) → c1 ≠ "" →
  body2 !! "username" = Some (PStr u2) → u2 ≠ "" →
  body2 !! "content" = Some (PStr c2) → c2 ≠ "" →
  update_post postId body2 t2 (snd (update_post postId body1 t1 s)) =
  update_post postId body2 t2 s.
Proof.
  intros Hp Hu1 Tu1 Hc1 Tc1 Hu2 Tu2 Hc2 Tc2.
  rewrite (update_post_run postId body1 t1 s u1 c1 Hu1 Tu1 Hc1 Tc1), Hp.
  simpl.
  rewrite !(update_post_run postId body2 t2 _ u2 c2 Hu2 Tu2 Hc2 Tc2).
  rewrite find_post_fmap by apply set_post_id. rewrite Hp. simpl.
  rewrite set_post_set_post, <- list_fmap_compose.
  do 2 f_equal. apply list_fmap_ext.
  intros i q _. simpl. apply set_post_set_post.
Qed.

Lemma update_post_last_wins_witness :
  update_post "p1" body_c "t9"
    (snd (update_post "p1" body_a "t8" s_commented)) =
  update_post "p1" body_c "t9" s_commented.
Proof.
  apply (update_post_last_wins s_commented "p1" body_a body_c
           "a" "hi" "t8" "c" "ok" "t9" row_p1);
    try discriminate; vm_compute; reflexivity.
Defined.

(** ** Beyond the claims: the counters added up *)

Lemma foldr_add_ext {A} (f g : A → Z) (l : list A) :
  (∀ x, x ∈ l → f x = g x) →
  foldr (λ x n, f x + n) 0 l = foldr (λ x n, g x + n) 0 l.
Proof.
  intros Hfg. induction l as [|a l IH]; [done|]. simpl.
  rewrite Hfg by left. f_equal. apply IH. intros x Hx. apply Hfg. by right.
Qed.

Lemma length_filter_split {A} (P : A → Prop) `{∀ x, Decision (P x)}
    (l : list A) :
  (length l = length (filter P l) + length (filter (λ x, ¬ P x) l))%nat.
Proof.
  induction l as [|a l IH]; [done|].
  rewrite !filter_cons. destruct (decide (P a)) as [Ha|Ha].
  - rewrite decide_False by tauto. simpl. lia.
  - rewrite decide_True by done. simpl. lia.
Qed.

(** Rows that each name one of the posts, counted post by post. *)
Lemma count_by_post {A} (k : A → string) (ps : list Post) (l : list A) :
  NoDup (p_id <$> ps) →
  (∀ x, x ∈ l → ∃ p, p ∈ ps ∧ p_id p = k x) →
  foldr (λ p n, Z.of_nat (length (filter (λ x, k x = p_id p) l)) + n) 0 ps =
  Z.of_nat (length l).
Proof.
  revert l. induction ps as [|a ps IH]; intros l Hnd Href.
  - destruct l as [|x l]; [done|].
    destruct (Href x) as (p & Hp & _); [left|]. by inversion Hp.
  - rewrite fmap_cons in Hnd. apply NoDup_cons in Hnd as [Ha Hnd]. simpl.
    rewrite (length_filter_split (λ x, k x = p_id a) l), Nat2Z.inj_add.
    rewrite <- (IH (filter (λ x, ¬ k x = p_id a) l) Hnd).
    + f_equal. apply foldr_add_ext.
      intros p Hp. do 2 f_equal. symmetry. apply filter_filter_keep.
      intros x _ Hx Hxa. apply Ha. rewrite <- Hxa, Hx.
      by apply list_elem_of_fmap_2.
    + intros x Hx. apply list_elem_of_filter in Hx as [Hne Hx].
      destruct (Href x Hx) as (p & Hp & Hpid). exists p. split; [|done].
      apply elem_of_cons in Hp as [->|Hp]; [|done]. by destruct Hne.
Qed.

(** X16.  In every reachable state the [likes] of all posts add up to
    the number of rows of [likes], and their [comments] to the number
    of rows of [comments]: every like and every comment is counted
    once. *)
Theorem counters_add_up (s : store) :
  reachable s →
  total p_likes s = Z.of_nat (length (likes s)) ∧
  total p_comments s = Z.of_nat (length (comments s)).
Proof.
  intros Hs.
  destruct (reachable_consistent s Hs) as ((Kp & _ & _) & (Rc & Rl) & Cn).
  unfold total. split.
  - rewrite <- (count_by_post l_postId (posts s) (likes s) Kp Rl).
    apply foldr_add_ext. intros p Hp. by destruct (Cn p Hp) as [-> _].
  - rewrite <- (count_by_post c_postId (posts s) (comments s) Kp Rc).
    apply foldr_add_ext. intros p Hp. by destruct (Cn p Hp) as [_ ->].
Qed.

Lemma counters_add_up_witness :
  total p_likes s_commented = Z.of_nat (length (likes s_commented)) ∧
  total p_comments s_commented = Z.of_nat (length (comments s_commented)).
Proof.
  apply (counters_add_up s_commented).
  repeat apply reachable_serve. apply reachable_init.
Defined.

(** ** Beyond the claims: the two listings and the answers *)

(** X17.  In a reachable state [list_posts] returns one dict per row of
    [posts], and a dict is in the list exactly when [get_post] returns
    it for some id. *)
Theorem list_posts_agrees_with_get_post (s : store) :
  reachable s →
  ∃ l,
    list_posts s = (Ok l, s) ∧
    length l = length (posts s) ∧
    ∀ d, d ∈ l ↔ ∃ postId, get_post postId s = (Ok d, s).
Proof.
  intros Hs. destruct (reachable_consistent s Hs) as ((Kp & _ & _) & _ & _).
  exists (post_dict <$> posts s). split; [done|]. split; [apply length_fmap|].
  intros d. split.
  - intros Hd. apply list_elem_of_fmap in Hd as (p & -> & Hp).
    exists (p_id p). rewrite get_post_run.
    destruct (find_post (p_id p) s) as [q|] eqn:Hq.
    + assert (q = p) as ->; [|done].
      eapply NoDup_key; [exact Kp|by eapply find_post_elem|done|].
      by eapply find_post_id.
    + exfalso. unfold find_post, posts_at, fetchone in Hq.
      destruct (filter _ (posts s)) eqn:Hf; [|done].
      by apply (filter_nil_not_elem_of _ _ p Hf).
  - intros [postId Hg]. rewrite get_post_run in Hg.
    destruct (find_post postId s) as [q|] eqn:Hq; [|done].
    injection Hg as <-. apply list_elem_of_fmap_2. by eapply find_post_elem.
Qed.

Lemma list_posts_agrees_with_get_post_witness :
  ∃ l,
    list_posts s_commented = (Ok l, s_commented) ∧
    length l = length (posts s_commented) ∧
    ∀ d, d ∈ l ↔ ∃ postId, get_post postId s_commented = (Ok d, s_commented).
Proof.
  apply (list_posts_agrees_with_get_post s_commented).
  repeat apply reachable_serve. apply reachable_init.
Defined.










(** ** Beyond the claims: start-up *)

(** X19.  [on_startup] leaves a database file with all three tables:
    the tables that were there keep their rows, the missing ones are
    created empty; so a restart on a complete database changes nothing,
    a new file becomes the empty database, and running it twice is
    running it once. *)
Theorem on_startup_keeps_rows (f : dbfile) :
  (∃ s, tables (on_startup f) = Some s ∧
     (∀ ps, f_posts f = Some ps → posts s = ps) ∧
     (∀ cs, f_comments f = Some cs → comments s = cs) ∧
     (∀ ls, f_likes f = Some ls → likes s = ls) ∧
     (f_posts f = None → posts s = []) ∧
     (f_comments f = None → comments s = []) ∧
     (f_likes f = None → likes s = [])) ∧
  (∀ s, tables f = Some s → tables (on_startup f) = Some s) ∧
  (∀ s, on_startup (file_of s) = file_of s) ∧
  tables (on_startup (mkFile None None None)) = Some empty_store ∧
  on_startup (on_startup f) = on_startup f.
Proof.
  destruct f as [[ps|] [cs|] [ls|]]; unfold on_startup, init_db, tables; simpl;
    (split; [eexists; split; [reflexivity|]; repeat split; simpl; congruence|]);
    (split; [intros s; congruence|]);
    (split; [by intros [? ? ?]|]); done.
Qed.

Lemma on_startup_keeps_rows_witness :
  tables (on_startup (mkFile (Some [row_p1]) None (Some []))) =
    Some (mkStore [row_p1] [] []) ∧
  tables (on_startup (file_of s_commented)) = Some s_commented.
Proof.
  split.
  - destruct (proj1 (on_startup_keeps_rows
                       (mkFile (Some [row_p1]) None (Some []))))
      as (s & Hs & Hp & _ & Hl & _ & Hc & _).
    rewrite Hs. f_equal. destruct s as [ps cs ls]. simpl in *.
    by rewrite (Hp _ eq_refl), (Hl _ eq_refl), (Hc eq_refl).
  - apply (proj1 (proj2 (on_startup_keeps_rows (file_of s_commented)))).
    vm_compute. reflexivity.
Defined.

(** ** Beyond the claims: a first like *)


